(** * Calendar logic, occurrence generation and completion tracking

    A shallow embedding of the calendar core of the personal assistant:
    [calendar-logic.js] (days in a month, month and year stepping, the
    per-month occurrence generator), the mark-done writers of
    [data-service.js] and [app.js], and the two consumers in [app.js]
    that post-process the generator's result.

    Dates follow the ECMAScript time-value model: a [Date] holds a number
    of milliseconds since 1970-01-01T00:00:00Z, or NaN.  Local time is
    taken to be UTC (a constant zone offset cancels between the
    constructor and the getters used here). *)

From Stdlib Require Import ZArith Lia Bool List.
From stdpp Require Import base option list strings pretty gmap.

Local Open Scope Z_scope.

(** ** ECMAScript dates *)

Module JsDate.

Definition msPerDay : Z := 86400000.

Definition Day (t : Z) : Z := t / msPerDay.
Definition TimeWithinDay (t : Z) : Z := t mod msPerDay.

Definition DaysInYear (y : Z) : Z :=
  if negb (y mod 4 =? 0) then 365
  else if negb (y mod 100 =? 0) then 366
  else if negb (y mod 400 =? 0) then 365
  else 366.

Definition DayFromYear (y : Z) : Z :=
  365 * (y - 1970) + (y - 1969) / 4 - (y - 1901) / 100 + (y - 1601) / 400.

(** The largest [y] with [DayFromYear y <= d]: the estimate [c] is off
    by at most one, so the three neighbours are tried from the top. *)
Definition YearFromDay (d : Z) : Z :=
  let c := 1970 + (400 * d) / 146097 in
  if DayFromYear (c + 1) <=? d then c + 1
  else if DayFromYear c <=? d then c
  else c - 1.

Definition YearFromTime (t : Z) : Z := YearFromDay (Day t).

Definition InLeapYear (t : Z) : Z :=
  if DaysInYear (YearFromTime t) =? 366 then 1 else 0.

Definition DayWithinYear (t : Z) : Z :=
  Day t - DayFromYear (YearFromTime t).

Definition MonthFromTime (t : Z) : Z :=
  let d := DayWithinYear t in
  let l := InLeapYear t in
  if d <? 31 then 0
  else if d <? 59 + l then 1
  else if d <? 90 + l then 2
  else if d <? 120 + l then 3
  else if d <? 151 + l then 4
  else if d <? 181 + l then 5
  else if d <? 212 + l then 6
  else if d <? 243 + l then 7
  else if d <? 273 + l then 8
  else if d <? 304 + l then 9
  else if d <? 334 + l then 10
  else 11.

Definition DateFromTime (t : Z) : Z :=
  let d := DayWithinYear t in
  let l := InLeapYear t in
  match MonthFromTime t with
  | 0 => d + 1
  | 1 => d - 30
  | 2 => d - 58 - l
  | 3 => d - 89 - l
  | 4 => d - 119 - l
  | 5 => d - 150 - l
  | 6 => d - 180 - l
  | 7 => d - 211 - l
  | 8 => d - 242 - l
  | 9 => d - 272 - l
  | 10 => d - 303 - l
  | _ => d - 333 - l
  end.

(** Day-within-year of the first day of month [mn] (0..11). *)
Definition monthStart (leap mn : Z) : Z :=
  match mn with
  | 0 => 0
  | 1 => 31
  | 2 => 59 + leap
  | 3 => 90 + leap
  | 4 => 120 + leap
  | 5 => 151 + leap
  | 6 => 181 + leap
  | 7 => 212 + leap
  | 8 => 243 + leap
  | 9 => 273 + leap
  | 10 => 304 + leap
  | _ => 334 + leap
  end.

(** [MakeDay]: the day number of the first of month [mn] in year [ym],
    plus [date - 1]; months outside 0..11 carry into the year. *)
Definition MakeDay (year month date : Z) : Z :=
  let ym := year + month / 12 in
  let mn := month mod 12 in
  let leap := if DaysInYear ym =? 366 then 1 else 0 in
  DayFromYear ym + monthStart leap mn + date - 1.

Definition MakeDate (day time : Z) : Z := day * msPerDay + time.

(** A time value, or NaN ([None]). *)
Definition TimeClip (t : Z) : option Z :=
  if Z.abs t >? 8640000000000000 then None else Some t.

(** [new Date(year, month, date)] on numbers that may be NaN.  Years
    0..99 denote 1900..1999. *)
Definition construct (year month date : option Z) : option Z :=
  match year, month, date with
  | Some y, Some m, Some dt =>
      let yr := if (0 <=? y) && (y <=? 99) then 1900 + y else y in
      TimeClip (MakeDate (MakeDay yr m dt) 0)
  | _, _, _ => None
  end.

Definition getFullYear (d : option Z) : option Z := YearFromTime <$> d.
Definition getMonth (d : option Z) : option Z := MonthFromTime <$> d.
Definition getDate (d : option Z) : option Z := DateFromTime <$> d.

(** [d.setMonth(month)]: the new time value of [d]. *)
Definition setMonth (d : option Z) (month : option Z) : option Z :=
  match d, month with
  | Some t, Some m =>
      TimeClip (MakeDate (MakeDay (YearFromTime t) m (DateFromTime t))
                         (TimeWithinDay t))
  | _, _ => None
  end.

(** [d.setFullYear(year)]; on an invalid date the time is taken as +0. *)
Definition setFullYear (d : option Z) (year : option Z) : option Z :=
  match year with
  | Some y =>
      let t := default 0 d in
      TimeClip (MakeDate (MakeDay y (MonthFromTime t) (DateFromTime t))
                         (TimeWithinDay t))
  | None => None
  end.

End JsDate.

Import JsDate.

(** ** The Gregorian calendar, as the specification words it *)

Definition gregorian_leap (y : Z) : bool :=
  (y mod 4 =? 0) && (negb (y mod 100 =? 0) || (y mod 400 =? 0)).

Definition gregorian_days (y m : Z) : Z :=
  match m with
  | 1 => if gregorian_leap y then 29 else 28
  | 3 | 5 | 8 | 10 => 30
  | _ => 31
  end.


(** ** Stored documents

    An event or task is a Firestore document, i.e. an object from field
    names to values; a field that is not set reads as [undefined]
    ([None]). *)

#[local] Unset Elimination Schemes.
Inductive jsval :=
  | JNull
  | JBool (b : bool)
  | JNum (n : Z)
  | JStr (s : string)
  | JArr (l : list jsval)
  | JObj (fields : list (string * jsval)).
#[local] Set Elimination Schemes.

Abbreviation doc := (gmap string jsval).

(** [ToBoolean] of a field read. *)
Definition truthy (v : option jsval) : bool :=
  match v with
  | None | Some JNull => false
  | Some (JBool b) => b
  | Some (JNum n) => negb (n =? 0)
  | Some (JStr s) => negb (String.eqb s "")
  | Some (JArr _) | Some (JObj _) => true
  end.

(** [v === s] for a string [s]. *)
Definition strictEqStr (v : option jsval) (s : string) : bool :=
  match v with
  | Some (JStr s') => String.eqb s' s
  | _ => false
  end.

(** [arr.includes(s)] for a string [s]. *)
Definition includes (arr : list jsval) (s : string) : bool :=
  existsb (fun v => strictEqStr (Some v) s) arr.

(** [ToString]; integers print in decimal. *)
Fixpoint jsToString (v : jsval) : string :=
  match v with
  | JNull => "null"
  | JBool b => if b then "true" else "false"
  | JNum n => pretty n
  | JStr s => s
  | JArr l =>
      String.concat ","
        (map (fun x => match x with JNull => "" | _ => jsToString x end) l)
  | JObj _ => "[object Object]"
  end.

Definition fieldToString (v : option jsval) : string :=
  match v with None => "undefined" | Some x => jsToString x end.

(** A primitive number (NaN is [None]) or string. *)
Inductive prim :=
  | PNum (n : option Z)
  | PStr (s : string).

Definition primToString (p : prim) : string :=
  match p with
  | PNum (Some n) => pretty n
  | PNum None => "NaN"
  | PStr s => s
  end.

Definition digitOf (c : Ascii.ascii) : option Z :=
  let n := Z.of_nat (Ascii.nat_of_ascii c) in
  if (48 <=? n) && (n <=? 57) then Some (n - 48) else None.

Fixpoint digitsToNumber (acc : Z) (s : string) : option Z :=
  match s with
  | EmptyString => Some acc
  | String c r =>
      match digitOf c with
      | Some d => digitsToNumber (10 * acc + d) r
      | None => None
      end
  end.

(** [ToNumber] of a string, for the strings that reach it below: the
    empty string, runs of decimal digits, and text that is no numeric
    literal at all (['event1'], ['[object Object]1']). *)
Definition stringToNumber (s : string) : option Z := digitsToNumber 0 s.

Definition primToNumber (p : prim) : option Z :=
  match p with
  | PNum n => n
  | PStr s => stringToNumber s
  end.

(** ** Arguments of the calendar functions

    The call sites bind numbers, the literals ['event'] / ['task'] and
    entity arrays to the parameters, not always in the declared order. *)

Inductive kind := KEvent | KTask.

Definition kind_str (k : kind) : string :=
  match k with KEvent => "event" | KTask => "task" end.

Inductive jsarg :=
  | ANum (n : Z)
  | AKind (k : kind)
  | AArr (l : list doc).

Definition argToString (a : jsarg) : string :=
  match a with
  | ANum n => pretty n
  | AKind k => kind_str k
  | AArr l => String.concat "," (map (fun _ => "[object Object]") l)
  end.

Definition argToNumber (a : jsarg) : option Z :=
  match a with
  | ANum n => Some n
  | _ => stringToNumber (argToString a)
  end.

(** [a + 1]: numeric for a number, concatenation otherwise. *)
Definition plus1 (a : jsarg) : prim :=
  match a with
  | ANum n => PNum (Some (n + 1))
  | _ => PStr (argToString a +:+ "1")
  end.

(** ** calendar-logic.js *)

(** [new Date(year, month + 1, 0).getDate()] *)
Definition daysInMonth (year month : jsarg) : option Z :=
  getDate (construct (argToNumber year) (primToNumber (plus1 month)) (Some 0)).

(** [new Date(currentDate)] *)
Definition copyDate (currentDate : option Z) : option Z :=
  currentDate ≫= TimeClip.

Definition changeCalendarMonth (offset : Z) (currentDate : option Z)
  : option Z :=
  let newDate := copyDate currentDate in
  setMonth newDate ((fun m => m + offset) <$> getMonth newDate).

Definition changeCalendarYear (offset : Z) (currentDate : option Z)
  : option Z :=
  let newDate := copyDate currentDate in
  setFullYear newDate ((fun y => y + offset) <$> getFullYear newDate).

(** [s.padStart(2, '0')] *)
Definition padStart2 (s : string) : string :=
  match String.length s with
  | 0%nat => "00" +:+ s
  | 1%nat => "0" +:+ s
  | _ => s
  end.

(** The template
    [`${year}-${String(month + 1).padStart(2, '0')}-${String(day).padStart(2, '0')}`] *)
Definition dateString (year month : jsarg) (day : Z) : string :=
  argToString year +:+ "-" +:+ padStart2 (primToString (plus1 month))
    +:+ "-" +:+ padStart2 (pretty day).

Inductive jserror := TypeError.

Inductive jsresult (A : Type) :=
  | Ok (a : A)
  | Throw (e : jserror).
Arguments Ok {A} a.
Arguments Throw {A} e.

Global Instance jsresult_bind : MBind jsresult := fun A B f r =>
  match r with
  | Ok a => f a
  | Throw e => Throw e
  end.

(** The object returned by the generator: date string to occurrence list. *)
Abbreviation occurrences := (gmap string (list doc)).

(** The entities of [l] whose [field] is strictly equal to [ds], each
    copied as [{ type: tag, ...entity }] (a [type] field of the entity
    wins over the tag). *)
Definition matching (l : list doc) (field tag ds : string) : list doc :=
  (fun e : doc => e ∪ {[ "type" := JStr tag ]}) <$>
    filter (fun e : doc => strictEqStr (e !! field) ds) l.

(** One [forEach] pass of the loop body; only arrays have [forEach]. *)
Definition forEachMatching (arr : jsarg) (field tag ds : string)
  : jsresult (list doc) :=
  match arr with
  | AArr l => Ok (matching l field tag ds)
  | _ => Throw TypeError
  end.

(** The values of [day] visited by [for (day = 1; day <= days; day++)]. *)
Definition loopDays (days : option Z) : list Z :=
  match days with
  | Some n => seqZ 1 n
  | None => []
  end.

Definition loopBody (year month allEvents allTasks : jsarg)
    (acc : jsresult occurrences) (day : Z) : jsresult occurrences :=
  occ ← acc;
  let ds := dateString year month day in
  evs ← forEachMatching allEvents "date" "event" ds;
  tks ← forEachMatching allTasks "dueDate" "task" ds;
  Ok (<[ ds := evs ++ tks ]> occ).

Definition generateOccurrencesForMonth (year month allEvents allTasks : jsarg)
  : jsresult occurrences :=
  let days := daysInMonth year month in
  foldl (loopBody year month allEvents allTasks) (Ok ∅) (loopDays days).

(** The table the loop builds: every date string of the month maps to
    the entities matching it, events first. *)
Definition dayEntries (es ts : list doc) (ds : string) : list doc :=
  matching es "date" "event" ds ++ matching ts "dueDate" "task" ds.

(** The dates of a month, as the loop spells them. *)
Definition monthDateStrings (year month : Z) : list string :=
  dateString (ANum year) (ANum month) <$>
    loopDays (daysInMonth (ANum year) (ANum month)).

Definition listedOn (r : jsresult occurrences) (ds : string) : bool :=
  match r with
  | Ok o => match o !! ds with Some (_ :: _) => true | _ => false end
  | Throw _ => false
  end.

(** The generator called as declared, on the entities [own] of kind [k]
    and the entities [others] of the other kind. *)
Definition generateKinds (k : kind) (own others : list doc) (year month : Z)
  : jsresult occurrences :=
  match k with
  | KEvent =>
      generateOccurrencesForMonth (ANum year) (ANum month)
        (AArr own) (AArr others)
  | KTask =>
      generateOccurrencesForMonth (ANum year) (ANum month)
        (AArr others) (AArr own)
  end.

(** The generator run on a single entity of kind [k]. *)
Definition generateFor (k : kind) (e : doc) (year month : Z)
  : jsresult occurrences :=
  generateKinds k [e] [] year month.

(** Expansion of one entity over a month: the dates of the month, in
    ascending order, under which the generator lists the entity. *)
Definition expand (k : kind) (e : doc) (year month : Z) : list string :=
  filter (fun ds => listedOn (generateFor k e year month) ds)
         (monthDateStrings year month).

(** The field the generator compares with the date string. *)
Definition dateField (k : kind) : string :=
  match k with KEvent => "date" | KTask => "dueDate" end.

(** A date field that is not set, or that spells no day of the month. *)
Definition missingOrInvalid (v : option jsval) (year month : Z) : Prop :=
  v = None \/
  forall ds, ds ∈ monthDateStrings year month -> v <> Some (JStr ds).

(** ** The document store *)

Record db := mkDb {
  events : gmap string doc;
  tasks : gmap string doc
}.

Definition collectionOf (k : kind) (s : db) : gmap string doc :=
  match k with KEvent => events s | KTask => tasks s end.

(** [updateDoc(ref, fields)]: the given fields replace those of the
    stored document, the others stay. *)
Definition updateDoc (k : kind) (id : string) (fields : doc) (s : db) : db :=
  match k with
  | KEvent => mkDb (alter (fun d => fields ∪ d) id (events s)) (tasks s)
  | KTask => mkDb (events s) (alter (fun d => fields ∪ d) id (tasks s))
  end.

Inductive toastType := success | error | info.

Definition toast : Type := string * toastType.

(** ** data-service.js *)

(** [v || d] on a field read. *)
Definition orElse (v : option jsval) (d : jsval) : jsval :=
  match v with
  | Some x => if truthy v then x else d
  | None => d
  end.

(** [type.charAt(0).toUpperCase() + type.slice(1)] *)
Definition kind_cap (k : kind) : string :=
  match k with KEvent => "Event" | KTask => "Task" end.

(** [s.includes(sub)] on strings. *)
Definition stringIncludes (s sub : string) : bool :=
  match String.index 0 sub s with Some _ => true | None => false end.

(** The common body of [markEventOccurrenceDone] and
    [markTaskOccurrenceDone]; [today] is [getTodayDateString()]. *)
Definition markOccurrenceDone (k : kind) (userId : option string)
    (today : string) (id : string) (s : db) : db * list toast :=
  if negb (truthy (JStr <$> userId)) then
    (s, [("Authentication error: No user ID.", error)])
  else
    match collectionOf k s !! id with
    | Some data =>
        let failed :=
          (s, [("Error marking " +:+ kind_str k +:+ " occurrence done!",
                error)]) in
        let already :=
          (s, [(kind_cap k +:+
                  " occurrence already marked as done for today.", info)]) in
        match orElse (data !! "completedOccurrences") (JArr []) with
        | JArr completedOccurrences =>
            if negb (includes completedOccurrences today) then
              (updateDoc k id
                 {[ "completedOccurrences" :=
                      JArr (completedOccurrences ++ [JStr today]) ]} s,
               [(kind_cap k +:+ " occurrence marked as done!", success)])
            else already
        | JStr str =>
            (* a string has [includes] but no [push] *)
            if negb (stringIncludes str today) then failed else already
        | _ => failed
        end
    | None => (s, [])
    end.

Definition markEventOccurrenceDone := markOccurrenceDone KEvent.
Definition markTaskOccurrenceDone := markOccurrenceDone KTask.

(** ** app.js *)

(** [handleMarkDoneClick]: [id], [type] and [occurrenceDate] are read
    from the button's data attributes; [confirmed] is the answer to the
    confirmation dialog and [now] the ISO time stamp of the write. *)
Definition handleMarkDoneClick (id : string) (type : kind)
    (occurrenceDate : string) (confirmed : bool) (now : string) (s : db)
  : db * list toast :=
  if negb confirmed then (s, [])
  else
    match collectionOf type s !! id with
    | Some data =>
        let s' :=
          if truthy (data !! "recurrence")
             && negb (strictEqStr (data !! "recurrence") "none")
          then
            let currentCompletedDates :=
              match data !! "completedOccurrencesDates" with
              | Some (JArr l) => l
              | _ => []
              end in
            if negb (includes currentCompletedDates occurrenceDate) then
              updateDoc type id
                {[ "completedOccurrencesDates" :=
                     JArr (currentCompletedDates ++ [JStr occurrenceDate]);
                   "updatedAt" := JStr now ]} s
            else s
          else
            updateDoc type id
              {[ "isCompleted" := JBool true; "updatedAt" := JStr now ]} s in
        (s', [(kind_cap type +:+ " occurrence marked as done!", success)])
    | None =>
        (s, [("Error: Original " +:+ kind_str type +:+ " not found.", error)])
    end.

(** The completion fields of a stored entity. *)
Definition completionState (k : kind) (id : string) (s : db)
  : option (option jsval * option jsval) :=
  (fun d : doc => (d !! "isCompleted", d !! "completedOccurrencesDates"))
    <$> collectionOf k s !! id.

(** The dates recorded as done in a [completedOccurrencesDates] field. *)
Definition completedDates (v : option jsval) : list jsval :=
  match v with Some (JArr l) => l | _ => [] end.

(** *** Consumers of the generator *)

(** What a consumer holds after the call: the generator's object, or an
    array produced by an array method. *)
Inductive collection :=
  | VObject (o : occurrences)
  | VArray (l : list doc).

(** [v.filter(p)]: only arrays have the method. *)
Definition filterMethod (v : collection) (p : doc -> bool)
  : jsresult collection :=
  match v with
  | VArray l => Ok (VArray (filter (fun e => p e) l))
  | VObject _ => Throw TypeError
  end.

(** Insertion before the first strictly greater element keeps equal
    elements in their input order. *)
Fixpoint insertSorted (cmp : doc -> doc -> jsresult Z) (x : doc)
    (l : list doc) : jsresult (list doc) :=
  match l with
  | [] => Ok [x]
  | y :: r =>
      c ← cmp x y;
      if c <=? 0 then Ok (x :: y :: r)
      else r' ← insertSorted cmp x r; Ok (y :: r')
  end.

Fixpoint stableSort (cmp : doc -> doc -> jsresult Z) (l : list doc)
  : jsresult (list doc) :=
  match l with
  | [] => Ok []
  | x :: r => r' ← stableSort cmp r; insertSorted cmp x r'
  end.

(** [v.sort(cmp)]: only arrays have the method. *)
Definition sortMethod (v : collection) (cmp : doc -> doc -> jsresult Z)
  : jsresult collection :=
  match v with
  | VArray l => l' ← stableSort cmp l; Ok (VArray l')
  | VObject _ => Throw TypeError
  end.

(** [v.length === 0]: an object keyed by date strings has no [length]. *)
Definition lengthIsZero (v : collection) : bool :=
  match v with
  | VArray l => bool_decide (l = [])
  | VObject _ => false
  end.

(** [a + b] on a field read and a value: concatenation as soon as one
    side is (or converts to) a string, numeric addition otherwise. *)
Definition isStringLike (v : jsval) : bool :=
  match v with JStr _ | JArr _ | JObj _ => true | _ => false end.

Definition valueToNumber (v : option jsval) : option Z :=
  match v with
  | None => None
  | Some JNull => Some 0
  | Some (JBool b) => Some (if b then 1 else 0)
  | Some (JNum n) => Some n
  | Some x => stringToNumber (jsToString x)
  end.

Definition jsAdd (a : option jsval) (b : jsval) : prim :=
  if from_option isStringLike false a || isStringLike b then
    PStr (fieldToString a +:+ jsToString b)
  else
    PNum (x ← valueToNumber a; y ← valueToNumber (Some b); Some (x + y)).

Section Consumers.

(** Engine-defined parts: [Date.parse] and the collation behind
    [String.prototype.localeCompare]. *)
Variable parseDate : string -> option Z.
Variable localeCompare : string -> string -> Z.

(** [new Date(v)] for a primitive [v]. *)
Definition dateOf (v : prim) : option Z :=
  match v with
  | PStr s => parseDate s ≫= TimeClip
  | PNum n => n ≫= TimeClip
  end.

(** [new Date(a.startDate + (a.startTime || '')) - new Date(...)];
    a NaN difference counts as [+0] for the sort. *)
Definition listViewCompare (a b : doc) : jsresult Z :=
  let key (e : doc) :=
    dateOf (jsAdd (e !! "startDate") (orElse (e !! "startTime") (JStr ""))) in
  Ok (default 0 (x ← key a; y ← key b; Some (x - y))).

(** [(a.startTime || '00:00').localeCompare(b.startTime || '00:00')] *)
Definition dayDetailCompare (a b : doc) : jsresult Z :=
  match orElse (a !! "startTime") (JStr "00:00") with
  | JStr s =>
      Ok (localeCompare s
            (jsToString (orElse (b !! "startTime") (JStr "00:00"))))
  | _ => Throw TypeError
  end.

(** The day-cell click handler of [renderCalendarViewContent]:
    [generateOccurrencesForMonth(all, kind, year, month)
       .filter(e => e.startDate === dayDateStr).sort(...)]. *)
Definition selectedDayEntries (all : list doc) (k : kind)
    (year month day : Z) : jsresult collection :=
  let dayDateStr := dateString (ANum year) (ANum month) day in
  o ← generateOccurrencesForMonth (AArr all) (AKind k) (ANum year)
        (ANum month);
  f ← filterMethod (VObject o)
        (fun e => strictEqStr (e !! "startDate") dayDateStr);
  sortMethod f dayDetailCompare.

(** [renderListViewContent], up to the two sorted sequences it renders;
    [None] stands for the early return with the "nothing scheduled"
    message. *)
Definition listViewEntries (evs tks : list doc) (year month : Z)
  : jsresult (option (collection * collection)) :=
  allEventsForMonth ← generateOccurrencesForMonth (AArr evs) (AKind KEvent)
                        (ANum year) (ANum month);
  allTasksForMonth ← generateOccurrencesForMonth (AArr tks) (AKind KTask)
                       (ANum year) (ANum month);
  if lengthIsZero (VObject allEventsForMonth)
     && lengthIsZero (VObject allTasksForMonth)
  then Ok None
  else
    sortedEvents ← sortMethod (VObject allEventsForMonth) listViewCompare;
    sortedTasks ← sortMethod (VObject allTasksForMonth) listViewCompare;
    Ok (Some (sortedEvents, sortedTasks)).

End Consumers.

(** ** Auxiliary definitions for the statements *)

(** Years whose twelve months all lie inside the range of time values. *)
Definition yearInRange (y : Z) : Prop := -271820 <= y <= 275759.

Definition jan31_2025 : option Z := construct (Some 2025) (Some 0) (Some 31).

Definition feb29_2024 : option Z := construct (Some 2024) (Some 1) (Some 29).

Definition daySuffixReads (d : Z) : bool :=
  match stringToNumber (padStart2 (pretty d)) with
  | Some n => n =? d
  | None => false
  end.

Definition jan15_2025_noon : Z := 1736942400000.

(** A weekly event starting on Wednesday 1 January 2025, as [app.js]
    stores it, and the same event carrying the [date] field that the
    generator reads. *)
Definition weeklyFromJan1 : doc :=
  {[ "id" := JStr "e1"; "name" := JStr "Standup";
     "startDate" := JStr "2025-01-01"; "recurrence" := JStr "weekly" ]}.

Definition weeklyFromJan1_dated : doc :=
  <[ "date" := JStr "2025-01-01" ]> weeklyFromJan1.

(** A monthly event starting on 31 January 2025, in both shapes. *)
Definition monthlyFromJan31 : doc :=
  {[ "id" := JStr "e2"; "name" := JStr "Rent";
     "startDate" := JStr "2025-01-31"; "recurrence" := JStr "monthly" ]}.

Definition monthlyFromJan31_dated : doc :=
  <[ "date" := JStr "2025-01-31" ]> monthlyFromJan31.

(** Events as the event form of [ui-components.js] saves them: a [date],
    no [startDate]. *)
Definition formEvent (date : string) : doc :=
  {[ "title" := JStr "Dentist"; "description" := JStr "";
     "date" := JStr date; "time" := JStr "";
     "completedOccurrences" := JArr [] ]}.

Definition weeklyOnFeb5 : doc :=
  <[ "recurrence" := JStr "weekly" ]> (formEvent "2025-02-05").

(** An event whose date names no day. *)
Definition garbledEvent : doc := formEvent "2025-02-30".

Definition emptyDb : db := mkDb ∅ ∅.

Definition launchEvent : doc :=
  {[ "name" := JStr "Launch"; "startDate" := JStr "2025-03-02";
     "recurrence" := JStr "none" ]}.

(** An event without a recurrence field. *)
Definition importedEvent : doc :=
  {[ "name" := JStr "Imported"; "startDate" := JStr "2025-03-02" ]}.

(** A store holding the three events above and no task. *)
Definition sampleDb : db :=
  mkDb {[ "e1" := weeklyFromJan1; "e3" := launchEvent;
          "e4" := importedEvent ]} ∅.

Definition markedDone (type : kind) : list toast :=
  [(kind_cap type +:+ " occurrence marked as done!", success)].

(** The branch taken by [handleMarkDoneClick] on a stored entity. *)
Definition perDate (e : doc) : bool :=
  truthy (e !! "recurrence") && negb (strictEqStr (e !! "recurrence") "none").


(** ** Further functions of calendar-logic.js and utilities.js *)

(** [WeekDay(t)] of ECMAScript: 0 is Sunday; day 0 was a Thursday. *)
Definition WeekDay (t : Z) : Z := (Day t + 4) mod 7.

Definition getDay (d : option Z) : option Z := WeekDay <$> d.

(** [new Date(year, month, 1).getDay()] *)
Definition firstDayOfMonth (year month : jsarg) : option Z :=
  getDay (construct (argToNumber year) (argToNumber month) (Some 1)).

(** [getTodayDateString], with [today] the value of [new Date()]. *)
Definition getTodayDateString (today : option Z) : string :=
  let year := getFullYear today in
  let month :=
    padStart2 (primToString (PNum ((fun m => m + 1) <$> getMonth today))) in
  let day := padStart2 (primToString (PNum (getDate today))) in
  primToString (PNum year) +:+ "-" +:+ month +:+ "-" +:+ day.

(** A cell of the month grid of [renderCalendarView]: a leading blank,
    or a day with the values the loop computes for it before they are
    formatted as HTML. *)
Inductive cell :=
  | Blank
  | DayCell (day : Z) (ds : string) (isToday hasEvents hasTasks : bool).

(** [dayOccurrences.some(o => o.type === tag)] *)
Definition someOfType (tag : string) (dayOccurrences : list doc) : bool :=
  existsb (fun o : doc => strictEqStr (o !! "type") tag) dayOccurrences.

Definition dayCell (year month : Z) (todayDateString : string)
    (occ : occurrences) (day : Z) : cell :=
  let ds := dateString (ANum year) (ANum month) day in
  let dayOccurrences := default [] (occ !! ds) in
  DayCell day ds (String.eqb ds todayDateString)
    (someOfType "event" dayOccurrences) (someOfType "task" dayOccurrences).

(** The cells of [renderCalendarView(currentDate, events, tasks, _)], in
    the order they are appended; an invalid [currentDate] gives NaN for
    the year, the month and both loop bounds, hence no cell. *)
Definition renderCalendarView (currentDate today : option Z)
    (evs tks : list doc) : jsresult (list cell) :=
  match currentDate with
  | Some t =>
      let year := YearFromTime t in
      let month := MonthFromTime t in
      let firstDay := firstDayOfMonth (ANum year) (ANum month) in
      let daysInCurrentMonth := daysInMonth (ANum year) (ANum month) in
      let blanks := replicate (Z.to_nat (default 0 firstDay)) Blank in
      let todayDateString := getTodayDateString today in
      occ ← generateOccurrencesForMonth (ANum year) (ANum month)
              (AArr evs) (AArr tks);
      Ok (blanks ++
          (dayCell year month todayDateString occ <$>
             loopDays daysInCurrentMonth))
  | None => Ok []
  end.

Definition cellIsToday (c : cell) : bool :=
  match c with
  | Blank => false
  | DayCell _ _ isToday _ _ => isToday
  end.

Definition cellDate (c : cell) : option string :=
  match c with
  | Blank => None
  | DayCell _ ds _ _ _ => Some ds
  end.

Definition jan1_2025 : option Z := construct (Some 2025) (Some 0) (Some 1).

Definition jan31_2025_noon : Z := 1738324800000.

Definition feb29_2024_noon : Z := 1709208000000.

(** [{ type: tag, ...e }] *)
Definition tagged (tag : string) (e : doc) : doc :=
  e ∪ {[ "type" := JStr tag ]}.

Definition isArray (a : jsarg) : bool :=
  match a with AArr _ => true | _ => false end.

(** A task as [app.js] stores it, with a category in its [type] field,
    due on the day it starts. *)
Definition categorisedTask : doc :=
  {[ "name" := JStr "Buy milk"; "type" := JStr "Groceries";
     "startDate" := JStr "2025-01-15"; "dueDate" := JStr "2025-01-15" ]}.

Definition cellIsBlank (c : cell) : bool :=
  match c with Blank => true | DayCell _ _ _ _ _ => false end.

(** ** Further functions of data-service.js *)

Fixpoint allChars (p : Ascii.ascii -> bool) (s : string) : bool :=
  match s with
  | EmptyString => true
  | String c r => p c && allChars p r
  end.

(** Whether the character [c] occurs in [s]. *)
Fixpoint charIn (c : Ascii.ascii) (s : string) : bool :=
  match s with
  | EmptyString => false
  | String c' r => Ascii.eqb c c' || charIn c r
  end.

(** A string the store takes as the name of a document. *)
Definition docName (id : string) : bool :=
  negb (String.eqb id "") && allChars (fun c => negb (charIn c "/")) id
  && negb (String.eqb id ".") && negb (String.eqb id "..")
  && negb (String.prefix "__" id).

(** A field name the store takes literally in [addDoc] and [updateDoc]:
    not empty, not reserved, and without the characters [updateDoc]
    reads as a field path. *)
Definition plainField (f : string) : bool :=
  negb (String.eqb f "")
  && allChars (fun c => negb (charIn c ".~*/[]`")) f
  && negb (String.prefix "__" f).

(** A value the store accepts: no array directly inside an array, and
    plain field names in nested objects. *)
Fixpoint storableValue (v : jsval) : bool :=
  match v with
  | JArr l =>
      forallb (fun x => match x with
                        | JArr _ => false
                        | _ => storableValue x
                        end) l
  | JObj o => forallb (fun '(f, x) => plainField f && storableValue x) o
  | _ => true
  end.

(** Data the store accepts and writes field by field.  The writes below
    are modelled for such data and for ids that are document names. *)
Definition storable (data : doc) : bool :=
  forallb (fun '(f, x) => plainField f && storableValue x) (map_to_list data).

(** [{ id: doc.id, ...doc.data() }]: the entity a snapshot listener
    builds for a document; a field [id] of the data comes last and
    wins. *)
Definition entityOf (docId : string) (data : doc) : doc :=
  data ∪ {[ "id" := JStr docId ]}.

(** [snapshot.docs.map(...)], the array handed to the application. *)
Definition snapshotEntities (coll : gmap string doc) : list doc :=
  (fun p : string * doc => entityOf p.1 p.2) <$> map_to_list coll.

(** [fetchEvents] / [fetchTasks]: what the callback receives. *)
Definition fetchEntities (k : kind) (userId : option string) (s : db)
  : list doc :=
  if negb (truthy (JStr <$> userId)) then []
  else snapshotEntities (collectionOf k s).

Definition setCollection (k : kind) (c : gmap string doc) (s : db) : db :=
  match k with
  | KEvent => mkDb c (tasks s)
  | KTask => mkDb (events s) c
  end.

(** [updateDoc] as the store performs it: rejected for a document that
    does not exist. *)
Definition updateDocStrict (k : kind) (id : string) (fields : doc) (s : db)
  : option db :=
  match collectionOf k s !! id with
  | Some _ => Some (updateDoc k id fields s)
  | None => None
  end.

(** [addDoc]: the data is stored under the id the store generates. *)
Definition addDoc (k : kind) (autoId : string) (data : doc) (s : db) : db :=
  setCollection k (<[ autoId := data ]> (collectionOf k s)) s.

(** [deleteDoc]: succeeds whether or not the document exists. *)
Definition deleteDoc (k : kind) (id : string) (s : db) : db :=
  setCollection k (delete id (collectionOf k s)) s.

Definition authError : list toast :=
  [("Authentication error: No user ID.", error)].

(** The common body of [saveEvent] and [saveTask]; [autoId] is the id
    the store would generate and [now] the value of [new Date()]. *)
Definition saveEntity (k : kind) (userId : option string) (autoId : string)
    (now : jsval) (data : doc) (s : db) : db * list toast :=
  if negb (truthy (JStr <$> userId)) then (s, authError)
  else
    let failed := (s, [("Error saving " +:+ kind_str k +:+ "!", error)]) in
    if truthy (data !! "id") then
      match data !! "id" with
      | Some (JStr id) =>
          (* const { id, ...dataToUpdate } = data *)
          match updateDocStrict k id (delete "id" data) s with
          | Some s' =>
              (s', [(kind_cap k +:+ " updated successfully!", success)])
          | None => failed
          end
      | _ => failed (* a path segment must be a string *)
      end
    else
      (addDoc k autoId (<[ "createdAt" := now ]> data) s,
       [(kind_cap k +:+ " added successfully!", success)]).

Definition saveEvent := saveEntity KEvent.
Definition saveTask := saveEntity KTask.

(** The common body of [deleteEvent] and [deleteTask]. *)
Definition deleteEntity (k : kind) (userId : option string) (id : string)
    (s : db) : db * list toast :=
  if negb (truthy (JStr <$> userId)) then (s, authError)
  else (deleteDoc k id s,
        [(kind_cap k +:+ " deleted successfully!", success)]).

Definition deleteEvent := deleteEntity KEvent.
Definition deleteTask := deleteEntity KTask.

(** ** Further functions of ui-components.js and app.js *)

(** [(e.completedOccurrences || []).includes(todayDate)] of
    [renderEventItem] and [renderTaskItem]: whether the mark-done button
    is disabled. *)
Definition completedToday (e : doc) (today : string) : jsresult bool :=
  match orElse (e !! "completedOccurrences") (JArr []) with
  | JArr l => Ok (includes l today)
  | JStr str => Ok (stringIncludes str today)
  | _ => Throw TypeError
  end.

(** [a < b] on two dates; false as soon as one is invalid. *)
Definition dateBefore (a b : option Z) : bool :=
  match a, b with
  | Some x, Some y => x <? y
  | _, _ => false
  end.

(** The status text and [showMarkDone] computed by
    [renderEventDetailContent] and [renderTaskDetailContent] for the
    selected entity; [startUTC] is [new Date(startDate + "T00:00:00Z")]
    and [todayUTC] the start of today. *)
Definition detailStatus (selected : doc) (startUTC todayUTC : option Z)
  : string * bool :=
  if strictEqStr (selected !! "recurrence") "none" then
    if truthy (selected !! "isCompleted") then ("Completed", false)
    else if dateBefore startUTC todayUTC then ("Overdue", true)
    else ("Upcoming", true)
  else
    let hasCompletedOccurrences :=
      match selected !! "completedOccurrencesDates" with
      | Some (JArr (_ :: _)) => true
      | _ => false
      end in
    if hasCompletedOccurrences then ("Has Completed Occurrences", true)
    else if dateBefore startUTC todayUTC
         then ("Upcoming (Some may be overdue)", true)
    else ("Upcoming", true).

(** The data the event form submits for a new event. *)
Definition newFormEvent : doc := <[ "id" := JNull ]> (formEvent "2025-02-05").

Definition otherKind (k : kind) : kind :=
  match k with KEvent => KTask | KTask => KEvent end.

(** ['${event.id}'], the argument the buttons of [renderEventItem] and
    [renderTaskItem] pass to [deleteEvent], [markEventOccurrenceDone]
    and their task counterparts (for an id without quote or
    backslash). *)
Definition buttonId (e : doc) : string := fieldToString (e !! "id").

(** The object the submit handler of the event form hands to
    [saveEvent]; [editing] is [editingEventState], the entity being
    edited or [null], and the strings are the values of the inputs. *)
Definition eventFormData (editing : option doc)
    (title description date time : string) : doc :=
  let fields : doc :=
    {[ "title" := JStr title; "description" := JStr description;
       "date" := JStr date; "time" := JStr time;
       "completedOccurrences" :=
         match editing with
         | Some e => orElse (e !! "completedOccurrences") (JArr [])
         | None => JArr []
         end ]} in
  match editing with
  | Some e =>
      match e !! "id" with
      | Some v => <[ "id" := v ]> fields
      | None => fields
      end
  | None => <[ "id" := JNull ]> fields
  end.

(** ** import-export.js

    [JSON.stringify] and [JSON.parse] are left out: [exportAllData] is
    modelled up to the value it serialises and [importAllData] from the
    value the parser returned. *)

(** [({ id, ...rest }) => rest] *)
Definition withoutId (e : doc) : doc := delete "id" e.

(** A document as a value. *)
Definition objectOf (d : doc) : jsval := JObj (map_to_list d).

(** The object [exportAllData] hands to [JSON.stringify]; [evs] and
    [tks] are [getEvents()] and [getTasks()]. *)
Definition exportAllData (evs tks : list doc) : jsval :=
  JObj [("events", JArr ((fun e => objectOf (withoutId e)) <$> evs));
        ("tasks", JArr ((fun e => objectOf (withoutId e)) <$> tks))].

(** [v[f]] for a parsed value other than [null] and a name that is
    neither an index nor [length]. *)
Definition fieldOf (v : jsval) (f : string) : option jsval :=
  match v with
  | JObj o => (list_to_map o : doc) !! f
  | _ => None
  end.

(** The properties of an array or string, by index. *)
Definition indexed (l : list jsval) : doc :=
  list_to_map (imap (fun i x => (pretty i, x)) l).

Fixpoint chars (s : string) : list jsval :=
  match s with
  | EmptyString => []
  | String c r => JStr (String c EmptyString) :: chars r
  end.

(** [{ ...v }]: the own enumerable properties of a parsed value. *)
Definition spread (v : jsval) : doc :=
  match v with
  | JObj o => list_to_map o
  | JArr l => indexed l
  | JStr s => indexed (chars s)
  | _ => ∅
  end.

Definition plural (k : kind) : string :=
  match k with KEvent => "events" | KTask => "tasks" end.

(** One turn of the loop that adds the entries: [p] is the index of the
    entry and the entry, [gen i] the id the store generates for entry
    [i] and [now i] the time it is added. *)
Definition importStep (k : kind) (gen : nat -> string) (now : nat -> jsval)
    (st : db) (p : nat * jsval) : db :=
  addDoc k (gen p.1) (<[ "createdAt" := now p.1 ]> (spread p.2)) st.

(** The two loops of one collection: every existing document is
    deleted, then every entry is added with a [createdAt]. *)
Definition importEntries (k : kind) (gen : nat -> string) (now : nat -> jsval)
    (entries : list jsval) (s : db) : db :=
  let cleared :=
    foldl (fun st id => deleteDoc k id st) s
      (map_to_list (collectionOf k s)).*1 in
  foldl (importStep k gen now) cleared (imap pair entries).

(** [if (data.events && Array.isArray(data.events)) { ... }], and the
    same for tasks. *)
Definition importKind (k : kind) (gen : nat -> string) (now : nat -> jsval)
    (data : jsval) (st : db * list toast) : db * list toast :=
  match fieldOf data (plural k) with
  | Some (JArr l) =>
      (importEntries k gen now l st.1,
       st.2 ++ [("Imported " +:+ pretty (length l) +:+ " " +:+ plural k +:+ ".",
                 success)])
  | _ => st
  end.

Definition importError : list toast :=
  [("Error importing data. Make sure it is valid JSON.", error)].

(** [importAllData]; [parsed] is the result of [JSON.parse(jsonData)],
    [None] when it throws. *)
Definition importAllData (userId : option string) (genE genT : nat -> string)
    (nowE nowT : nat -> jsval) (parsed : option jsval) (s : db)
  : db * list toast :=
  if negb (truthy (JStr <$> userId)) then
    (s, [("Authentication error: No user ID. Cannot import data.", error)])
  else
    match parsed with
    | None => (s, importError)
    | Some JNull => (s, importError) (* [data.events] on [null] throws *)
    | Some data =>
        importKind KTask genT nowT data
          (importKind KEvent genE nowE data (s, []))
    end.

Definition genOf (k : kind) (genE genT : nat -> string) : nat -> string :=
  match k with KEvent => genE | KTask => genT end.

Definition nowOf (k : kind) (nowE nowT : nat -> jsval) : nat -> jsval :=
  match k with KEvent => nowE | KTask => nowT end.

(** A file with one event and no [tasks] entry. *)
Definition oneEventFile : jsval :=
  JObj [("events", JArr [JObj [("title", JStr "Dentist");
                                ("date", JStr "2025-02-05")]])].

Definition numberedId (prefix : string) (i : nat) : string :=
  prefix +:+ pretty i.

(** ** The CSV export of app.js *)

Definition dquote : Ascii.ascii := Ascii.ascii_of_nat 34.
Definition comma : Ascii.ascii := Ascii.ascii_of_nat 44.
Definition newline : Ascii.ascii := Ascii.ascii_of_nat 10.

Definition str (c : Ascii.ascii) : string := String c EmptyString.

(** Every quote of the value written twice, as the global [replace] of
    the export does. *)
Fixpoint doubleQuotes (s : string) : string :=
  match s with
  | EmptyString => EmptyString
  | String c r =>
      if Ascii.eqb c dquote then String dquote (String dquote (doubleQuotes r))
      else String c (doubleQuotes r)
  end.

(** The value between quotes, its quotes doubled. *)
Definition quoted (s : string) : string :=
  String dquote (doubleQuotes s +:+ str dquote).

(** A cell of a data line: quoted when it holds a comma, a quote or a
    line break. *)
Definition escapeField (s : string) : string :=
  if charIn comma s || charIn dquote s || charIn newline s then quoted s
  else s.

(** [values.join(',')] *)
Definition csvLine (values : list string) : string :=
  String.concat (str comma) (escapeField <$> values).

Definition exportHeaders : list string :=
  ["Type"; "Name"; "Description"; "AdditionalInfo"; "StartDate"; "StartTime";
   "EndDate"; "EndTime"; "Recurrence"; "TaskType"; "IsCompleted"].

(** The first line: every header between quotes. *)
Definition headerLine : string :=
  String.concat (str comma) (quoted <$> exportHeaders).

(** [String(value)] after [null] and [undefined] became the empty
    string. *)
Definition cellText (v : option jsval) : string :=
  match v with
  | None | Some JNull => ""
  | Some x => jsToString x
  end.

(** The cells of the row [handleExportData] builds for an event or a
    task, in the order of the headers. *)
Definition exportRow (k : kind) (e : doc) : list string :=
  let orEmpty f := cellText (Some (orElse (e !! f) (JStr ""))) in
  [ kind_cap k;
    cellText (e !! "name");
    orEmpty "description";
    orEmpty "additionalInfo";
    cellText (e !! "startDate");
    orEmpty "startTime";
    orEmpty "endDate";
    orEmpty "endTime";
    cellText (e !! "recurrence");
    match k with KEvent => "" | KTask => orEmpty "type" end;
    if truthy (e !! "isCompleted") then "TRUE" else "FALSE" ].

Definition sampleRows : list (list string) :=
  [ ["Event"; "Sample Event"; "This is a sample event description.";
     "Example: Meeting agenda, location details."; "2025-07-01"; "09:00";
     "2025-07-01"; "10:00"; "none"; ""; "FALSE"];
    ["Task"; "Sample Task"; "This is a sample task description.";
     "Example: Groceries list, project steps."; "2025-07-05"; "14:00";
     ""; ""; "weekly"; "Groceries"; "FALSE"] ].

(** [allData] after the two loops and the fallback to the samples. *)
Definition exportRows (evs tks : list doc) : list (list string) :=
  let allData := (exportRow KEvent <$> evs) ++ (exportRow KTask <$> tks) in
  match allData with
  | [] => sampleRows
  | _ => allData
  end.

(** [csvContent], the text [handleExportData] offers for download. *)
Definition handleExportData (evs tks : list doc) : string :=
  foldl (fun csvContent row => csvContent +:+ csvLine row +:+ str newline)
    (headerLine +:+ str newline) (exportRows evs tks).

(** The scanner of one row in [parseCSV], which app.js keeps commented
    out: [inQuote] and [currentField] are its two variables, and the
    result is [values] after the last push. *)
Fixpoint scanRow (row : string) (inQuote : bool) (currentField : string)
  : list string :=
  match row with
  | EmptyString => [currentField]
  | String c r =>
      if Ascii.eqb c dquote then
        match inQuote, r with
        | true, String c2 r2 =>
            if Ascii.eqb c2 dquote
            then scanRow r2 true (currentField +:+ str dquote)
            else scanRow r false currentField
        | _, _ => scanRow r (negb inQuote) currentField
        end
      else if Ascii.eqb c comma && negb inQuote then
        currentField :: scanRow r false ""
      else scanRow r inQuote (currentField +:+ str c)
  end.

(** What may follow a cell in a row: nothing, or a comma and more. *)
Definition afterCell (rest : string) : Prop :=
  rest = "" \/ exists r, rest = String comma r.

(** An event whose description needs quoting. *)
Definition quotedEvent : doc :=
  {[ "name" := JStr "Lunch, then review";
     "description" := JStr (str dquote +:+ "Q3" +:+ str dquote +:+ " plan");
     "startDate" := JStr "2025-03-02"; "recurrence" := JStr "none" ]}.

Lemma DayFromYear_succ (y : Z) :
  DayFromYear (y + 1) = DayFromYear y + DaysInYear y.
Proof.
  unfold DayFromYear, DaysInYear.
  destruct (Z.eqb_spec (y mod 4) 0), (Z.eqb_spec (y mod 100) 0),
    (Z.eqb_spec (y mod 400) 0); simpl; Z.div_mod_to_equations; lia.
Qed.

Lemma DaysInYear_cases (y : Z) : DaysInYear y = 365 \/ DaysInYear y = 366.
Proof.
  unfold DaysInYear.
  destruct (y mod 4 =? 0), (y mod 100 =? 0), (y mod 400 =? 0); simpl; auto.
Qed.

Lemma YearFromDay_unique (y d : Z) :
  DayFromYear y <= d < DayFromYear (y + 1) -> YearFromDay d = y.
Proof.
  intros H. unfold YearFromDay.
  pose proof (DayFromYear_succ y) as S0.
  pose proof (DaysInYear_cases y) as C0.
  set (c := 1970 + 400 * d / 146097).
  assert (Hc : y - 1 <= c <= y + 1).
  { subst c. unfold DayFromYear in *. Z.div_mod_to_equations. lia. }
  assert (Hm : forall a b, a <= b -> DayFromYear a <= DayFromYear b).
  { intros a b Hab. unfold DayFromYear. Z.div_mod_to_equations. lia. }
  pose proof (Hm (y + 1) (c + 1)) as M1.
  pose proof (Hm (y + 1) c) as M2.
  pose proof (Hm (c + 1) y) as M3.
  pose proof (Hm c y) as M4.
  destruct (Z.leb_spec (DayFromYear (c + 1)) d);
    [|destruct (Z.leb_spec (DayFromYear c) d)]; lia.
Qed.

Lemma YearFromDay_spec (d : Z) :
  DayFromYear (YearFromDay d) <= d < DayFromYear (YearFromDay d + 1).
Proof.
  unfold YearFromDay.
  set (c := 1970 + 400 * d / 146097).
  assert (Hlo : DayFromYear (c - 1) <= d).
  { subst c. unfold DayFromYear. Z.div_mod_to_equations. lia. }
  assert (Hhi : d < DayFromYear (c + 2)).
  { subst c. unfold DayFromYear. Z.div_mod_to_equations. lia. }
  destruct (Z.leb_spec (DayFromYear (c + 1)) d);
    [|destruct (Z.leb_spec (DayFromYear c) d)].
  - replace (c + 1 + 1) with (c + 2) by lia. lia.
  - lia.
  - replace (c - 1 + 1) with c by lia. lia.
Qed.

Lemma DaysInYear_leap (y : Z) :
  (DaysInYear y =? 366) = gregorian_leap y.
Proof.
  unfold DaysInYear, gregorian_leap.
  destruct (Z.eqb_spec (y mod 4) 0), (Z.eqb_spec (y mod 100) 0),
    (Z.eqb_spec (y mod 400) 0); simpl; try reflexivity;
    exfalso; Z.div_mod_to_equations; lia.
Qed.

Lemma DaysInYear_gregorian (y : Z) :
  DaysInYear y = if gregorian_leap y then 366 else 365.
Proof.
  rewrite <- DaysInYear_leap.
  destruct (DaysInYear_cases y) as [E|E]; rewrite E; reflexivity.
Qed.

Lemma Day_MakeDate (day time : Z) :
  0 <= time < msPerDay -> Day (MakeDate day time) = day.
Proof.
  intros H. unfold Day, MakeDate, msPerDay in *.
  Z.div_mod_to_equations. lia.
Qed.

Lemma TimeWithinDay_MakeDate (day time : Z) :
  0 <= time < msPerDay -> TimeWithinDay (MakeDate day time) = time.
Proof.
  intros H. unfold TimeWithinDay, MakeDate, msPerDay in *.
  Z.div_mod_to_equations. lia.
Qed.

Lemma MakeDate_Day (t : Z) : MakeDate (Day t) (TimeWithinDay t) = t.
Proof.
  unfold MakeDate, Day, TimeWithinDay, msPerDay.
  Z.div_mod_to_equations. lia.
Qed.

Lemma TimeWithinDay_range (t : Z) : 0 <= TimeWithinDay t < msPerDay.
Proof. unfold TimeWithinDay, msPerDay. Z.div_mod_to_equations. lia. Qed.

Lemma month_cases (mn : Z) :
  0 <= mn <= 11 ->
  mn = 0 \/ mn = 1 \/ mn = 2 \/ mn = 3 \/ mn = 4 \/ mn = 5 \/ mn = 6 \/
  mn = 7 \/ mn = 8 \/ mn = 9 \/ mn = 10 \/ mn = 11.
Proof. lia. Qed.

Ltac month_split H :=
  destruct (month_cases _ H) as
    [->|[->|[->|[->|[->|[->|[->|[->|[->|[->|[->| ->]]]]]]]]]]].

Lemma MakeDay_normal (y mn dt : Z) :
  0 <= mn <= 11 ->
  MakeDay y mn dt =
    DayFromYear y + monthStart (if gregorian_leap y then 1 else 0) mn + dt - 1.
Proof.
  intros H. unfold MakeDay.
  replace (mn / 12) with 0 by (Z.div_mod_to_equations; lia).
  replace (mn mod 12) with mn by (Z.div_mod_to_equations; lia).
  rewrite Z.add_0_r, DaysInYear_leap. reflexivity.
Qed.

(** A day inside month [mn] of year [y] reads back as that year, month
    and day of the month. *)
Lemma civil_of_day (y mn dt t : Z) :
  0 <= mn <= 11 ->
  1 <= dt <= gregorian_days y mn ->
  Day t = MakeDay y mn dt ->
  YearFromTime t = y /\ MonthFromTime t = mn /\ DateFromTime t = dt.
Proof.
  intros Hm Hd HD. rewrite (MakeDay_normal _ _ _ Hm) in HD.
  assert (HY : YearFromTime t = y).
  { unfold YearFromTime. apply YearFromDay_unique.
    rewrite DayFromYear_succ, DaysInYear_gregorian, HD.
    revert Hd. month_split Hm; unfold gregorian_days;
      destruct (gregorian_leap y); simpl; lia. }
  unfold DateFromTime, MonthFromTime, InLeapYear, DayWithinYear.
  rewrite HY, DaysInYear_leap, HD. split; [reflexivity|].
  revert Hd. month_split Hm; unfold gregorian_days;
    destruct (gregorian_leap y); simpl; intros Hd;
    repeat match goal with
    | |- context [?a <? ?b] => destruct (Z.ltb_spec a b); try lia
    end; split; lia.
Qed.

(** Every time value reads as a day that exists, and [MakeDay] maps the
    reading back to the day number. *)
Lemma day_of_civil (t : Z) :
  0 <= MonthFromTime t <= 11 /\
  1 <= DateFromTime t <= gregorian_days (YearFromTime t) (MonthFromTime t) /\
  MakeDay (YearFromTime t) (MonthFromTime t) (DateFromTime t) = Day t.
Proof.
  pose proof (YearFromDay_spec (Day t)) as HY.
  rewrite DayFromYear_succ, DaysInYear_gregorian in HY.
  fold (YearFromTime t) in HY.
  assert (Hm : 0 <= MonthFromTime t <= 11).
  { unfold MonthFromTime.
    repeat match goal with
    | |- context [?a <? ?b] => destruct (Z.ltb_spec a b); try lia
    end. }
  split; [exact Hm|]. rewrite (MakeDay_normal _ _ _ Hm).
  unfold DateFromTime, MonthFromTime, InLeapYear, DayWithinYear in *.
  rewrite DaysInYear_leap. clear Hm.
  set (y := YearFromTime t) in *. set (D := Day t) in *.
  unfold gregorian_days.
  destruct (gregorian_leap y); simpl;
    repeat match goal with
    | |- context [?a <? ?b] => destruct (Z.ltb_spec a b); try lia
    end; simpl; lia.
Qed.

Lemma DayFromYear_mono (a b : Z) : a <= b -> DayFromYear a <= DayFromYear b.
Proof. intros H. unfold DayFromYear. Z.div_mod_to_equations. lia. Qed.

(** Day 0 of the following month is the last day of the month. *)
Lemma MakeDay_month_end (y m : Z) :
  0 <= m <= 11 -> MakeDay y (m + 1) 0 = MakeDay y m (gregorian_days y m).
Proof.
  intros Hm. rewrite (MakeDay_normal y m _ Hm).
  destruct (Z.eq_dec m 11) as [->|Hne].
  - unfold MakeDay. change ((11 + 1) / 12) with 1.
    change ((11 + 1) mod 12) with 0.
    rewrite DayFromYear_succ, DaysInYear_gregorian.
    unfold gregorian_days. destruct (gregorian_leap y); simpl; lia.
  - rewrite MakeDay_normal by lia.
    month_split Hm; try lia; unfold gregorian_days;
      destruct (gregorian_leap y); simpl; lia.
Qed.

Lemma gregorian_days_range (y m : Z) : 28 <= gregorian_days y m <= 31.
Proof.
  unfold gregorian_days. destruct (gregorian_leap y);
    repeat match goal with
    | |- context [match ?x with _ => _ end] => destruct x
    end; lia.
Qed.


Lemma MakeDay_in_range (y m dt : Z) :
  yearInRange y -> 0 <= m <= 11 -> 1 <= dt <= gregorian_days y m ->
  -99999744 <= MakeDay y m dt <= 99999744.
Proof.
  intros [Hlo Hhi] Hm Hd. rewrite (MakeDay_normal _ _ _ Hm).
  pose proof (DayFromYear_mono _ _ Hlo) as L.
  pose proof (DayFromYear_mono _ _ Hhi) as U.
  change (DayFromYear (-271820)) with (-99999744) in L.
  change (DayFromYear 275759) with 99999379 in U.
  revert Hd. month_split Hm; unfold gregorian_days;
    destruct (gregorian_leap y); simpl; lia.
Qed.

Lemma TimeClip_days (day time : Z) :
  -100000000 <= day < 100000000 -> 0 <= time < msPerDay ->
  TimeClip (MakeDate day time) = Some (MakeDate day time).
Proof.
  intros Hd Ht. unfold TimeClip, MakeDate, msPerDay in *.
  destruct (Z.gtb_spec (Z.abs (day * 86400000 + time)) 8640000000000000);
    [lia|reflexivity].
Qed.

(** ** [daysInMonth] *)

Lemma gregorian_leap_two_digit (y : Z) :
  1 <= y <= 99 -> gregorian_leap (1900 + y) = gregorian_leap y.
Proof.
  intros H. unfold gregorian_leap.
  destruct (Z.eqb_spec ((1900 + y) mod 4) 0), (Z.eqb_spec (y mod 4) 0),
    (Z.eqb_spec ((1900 + y) mod 100) 0), (Z.eqb_spec (y mod 100) 0),
    (Z.eqb_spec ((1900 + y) mod 400) 0), (Z.eqb_spec (y mod 400) 0);
    simpl; try reflexivity; exfalso; Z.div_mod_to_equations; lia.
Qed.

Lemma gregorian_days_two_digit (y m : Z) :
  1 <= y <= 99 -> gregorian_days (1900 + y) m = gregorian_days y m.
Proof.
  intros H. unfold gregorian_days.
  rewrite (gregorian_leap_two_digit _ H). reflexivity.
Qed.

(** The date constructor at day 0 of the following month yields the last
    day of month [m] of the year [yr] it was given. *)
Lemma month_end_date (yr m : Z) :
  yearInRange yr -> 0 <= m <= 11 ->
  getDate (TimeClip (MakeDate (MakeDay yr (m + 1) 0) 0))
  = Some (gregorian_days yr m).
Proof.
  intros Hy Hm. rewrite (MakeDay_month_end _ _ Hm).
  pose proof (gregorian_days_range yr m) as Hg.
  pose proof (MakeDay_in_range yr m (gregorian_days yr m) Hy Hm) as Hr.
  rewrite TimeClip_days by (unfold msPerDay; lia).
  simpl. f_equal.
  apply (civil_of_day yr m); [lia|lia|].
  apply Day_MakeDate. unfold msPerDay; lia.
Qed.

(** C7, as amended: inside the range of years that [Date] represents in
    full, and away from year 0 (which the constructor reads as 1900),
    [daysInMonth] is the Gregorian length of the month; February 2024
    has 29 days and February 2023 has 28. *)
Theorem daysInMonth_gregorian :
  (forall year month : Z,
      yearInRange year -> year <> 0 -> 0 <= month <= 11 ->
      daysInMonth (ANum year) (ANum month) = Some (gregorian_days year month))
  /\ daysInMonth (ANum 2024) (ANum 1) = Some 29
  /\ daysInMonth (ANum 2023) (ANum 1) = Some 28.
Proof.
  split; [|split; reflexivity].
  intros year month Hy H0 Hm.
  unfold daysInMonth, argToNumber, plus1, primToNumber, construct.
  destruct (Z.leb_spec 0 year); destruct (Z.leb_spec year 99); simpl.
  - rewrite month_end_date by (unfold yearInRange in *; lia).
    rewrite gregorian_days_two_digit by lia. reflexivity.
  - apply month_end_date; assumption.
  - apply month_end_date; assumption.
  - apply month_end_date; assumption.
Qed.

(** The general statement of [daysInMonth_gregorian] at March 2100. *)
Lemma daysInMonth_gregorian_witness :
  yearInRange 2100 /\ 2100 <> 0 /\ 0 <= 2 <= 11 /\
  daysInMonth (ANum 2100) (ANum 2) = Some (gregorian_days 2100 2).
Proof.
  assert (Hy : yearInRange 2100) by (unfold yearInRange; lia).
  assert (H0 : 2100 <> 0) by lia.
  assert (Hm : 0 <= 2 <= 11) by lia.
  split; [exact Hy|]. split; [exact H0|]. split; [exact Hm|].
  exact (proj1 daysInMonth_gregorian 2100 2 Hy H0 Hm).
Defined.

(** C7 as stated fails at February of year 0: the rule makes year 0 a
    leap year, while [new Date(0, 2, 0)] is the last day of February
    1900.  It also fails beyond the range of time values, where the
    date is invalid and the result is NaN. *)
Lemma daysInMonth_not_gregorian :
  daysInMonth (ANum 0) (ANum 1) = Some 28 /\ gregorian_days 0 1 = 29
  /\ daysInMonth (ANum 0) (ANum 1) <> Some (gregorian_days 0 1)
  /\ daysInMonth (ANum 300000) (ANum 1) = None.
Proof.
  split; [reflexivity|]. split; [reflexivity|].
  split; [vm_compute; discriminate|reflexivity].
Qed.

(** ** Month and year stepping *)

Lemma monthStart_bounds (l m : Z) :
  0 <= l <= 1 -> 0 <= m <= 11 ->
  30 * m - 1 <= monthStart l m <= 30 * m + 5.
Proof. intros Hl Hm. month_split Hm; simpl; lia. Qed.

Lemma leap_flag_range (y : Z) : 0 <= (if gregorian_leap y then 1 else 0) <= 1.
Proof. destruct (gregorian_leap y); lia. Qed.

(** The first days of two months coincide only for the same month of
    the same year. *)
Lemma MakeDay_month_inj (y1 m1 y2 m2 dt : Z) :
  0 <= m1 <= 11 -> 0 <= m2 <= 11 ->
  MakeDay y1 m1 dt = MakeDay y2 m2 dt -> y1 = y2 /\ m1 = m2.
Proof.
  intros H1 H2. rewrite !MakeDay_normal by assumption. intros E.
  pose proof (monthStart_bounds _ _ (leap_flag_range y1) H1) as B1.
  pose proof (monthStart_bounds _ _ (leap_flag_range y2) H2) as B2.
  pose proof (DayFromYear_succ y1) as S1.
  pose proof (DayFromYear_succ y2) as S2.
  rewrite DaysInYear_gregorian in S1, S2.
  assert (Hy : y1 = y2).
  { destruct (Z.lt_trichotomy y1 y2) as [L|[L|L]]; [|exact L|].
    - pose proof (DayFromYear_mono (y1 + 1) y2 ltac:(lia)).
      destruct (gregorian_leap y1), (gregorian_leap y2); lia.
    - pose proof (DayFromYear_mono (y2 + 1) y1 ltac:(lia)).
      destruct (gregorian_leap y1), (gregorian_leap y2); lia. }
  subst y2. split; [reflexivity|].
  destruct (Z.lt_trichotomy m1 m2) as [L|[L|L]]; [|exact L|]; exfalso;
    revert E; clear -H1 H2 L;
    destruct (gregorian_leap y1);
    month_split H1; month_split H2; simpl; lia.
Qed.

Lemma MakeDay_carry (y M dt : Z) :
  MakeDay y M dt = MakeDay (y + M / 12) (M mod 12) dt.
Proof.
  unfold MakeDay.
  replace (M mod 12 / 12) with 0 by (Z.div_mod_to_equations; lia).
  replace ((M mod 12) mod 12) with (M mod 12)
    by (Z.div_mod_to_equations; lia).
  rewrite Z.add_0_r. reflexivity.
Qed.

Lemma TimeClip_Some (t u : Z) : TimeClip t = Some u -> u = t.
Proof.
  unfold TimeClip. destruct (Z.abs t >? 8640000000000000); congruence.
Qed.

(** A time built from a day and a time of day reads back as the month
    it was built for, as soon as its day of the month is the one asked
    for. *)
Lemma made_date_readback (y m dt tw t1 : Z) :
  0 <= m <= 11 -> 0 <= tw < msPerDay ->
  t1 = MakeDate (MakeDay y m dt) tw ->
  DateFromTime t1 = dt ->
  YearFromTime t1 = y /\ MonthFromTime t1 = m /\ TimeWithinDay t1 = tw.
Proof.
  intros Hm Htw -> Hd.
  set (t1 := MakeDate (MakeDay y m dt) tw) in *.
  destruct (day_of_civil t1) as (Hm1 & _ & Hback).
  rewrite Hd in Hback. unfold t1 in Hback at 3.
  rewrite (Day_MakeDate _ _ Htw) in Hback.
  destruct (MakeDay_month_inj _ _ _ _ _ Hm1 Hm Hback) as [-> ->].
  repeat split. unfold t1. apply TimeWithinDay_MakeDate, Htw.
Qed.

Lemma changeCalendarMonth_unfold (delta t : Z) :
  TimeClip t = Some t ->
  changeCalendarMonth delta (Some t)
  = TimeClip (MakeDate (MakeDay (YearFromTime t) (MonthFromTime t + delta)
                          (DateFromTime t)) (TimeWithinDay t)).
Proof.
  intros Hv. unfold changeCalendarMonth, copyDate. simpl. rewrite Hv.
  reflexivity.
Qed.

Lemma changeCalendarYear_unfold (delta t : Z) :
  TimeClip t = Some t ->
  changeCalendarYear delta (Some t)
  = TimeClip (MakeDate (MakeDay (YearFromTime t + delta) (MonthFromTime t)
                          (DateFromTime t)) (TimeWithinDay t)).
Proof.
  intros Hv. unfold changeCalendarYear, copyDate. simpl. rewrite Hv.
  reflexivity.
Qed.

Lemma month_step_back (t delta : Z) :
  TimeClip t = Some t ->
  getDate (changeCalendarMonth delta (Some t)) = getDate (Some t) ->
  changeCalendarMonth (- delta) (changeCalendarMonth delta (Some t)) = Some t.
Proof.
  intros Hv Hd. rewrite (changeCalendarMonth_unfold _ _ Hv) in *.
  destruct (day_of_civil t) as (Hm & _ & Hback).
  pose proof (TimeWithinDay_range t) as Htw.
  set (M := MonthFromTime t + delta) in *.
  destruct (TimeClip (MakeDate (MakeDay (YearFromTime t) M (DateFromTime t))
                        (TimeWithinDay t))) as [t1|] eqn:E1;
    [|discriminate].
  pose proof (TimeClip_Some _ _ E1) as Et.
  pose proof E1 as Hv1. rewrite <- Et in Hv1. clear E1. rename Et into E1.
  simpl in Hd. injection Hd as Hd.
  rewrite MakeDay_carry in E1.
  assert (HM12 : 0 <= M mod 12 <= 11) by (Z.div_mod_to_equations; lia).
  destruct (made_date_readback _ _ _ _ _ HM12 Htw E1 Hd) as (HY & HM & HT).
  rewrite (changeCalendarMonth_unfold _ _ Hv1), HY, HM, HT, Hd.
  rewrite MakeDay_carry.
  replace (YearFromTime t + M / 12 + (M mod 12 + - delta) / 12)
    with (YearFromTime t) by (subst M; Z.div_mod_to_equations; lia).
  replace ((M mod 12 + - delta) mod 12) with (MonthFromTime t)
    by (subst M; Z.div_mod_to_equations; lia).
  rewrite Hback, MakeDate_Day. exact Hv.
Qed.

Lemma year_step_back (t delta : Z) :
  TimeClip t = Some t ->
  getDate (changeCalendarYear delta (Some t)) = getDate (Some t) ->
  changeCalendarYear (- delta) (changeCalendarYear delta (Some t)) = Some t.
Proof.
  intros Hv Hd. rewrite (changeCalendarYear_unfold _ _ Hv) in *.
  destruct (day_of_civil t) as (Hm & _ & Hback).
  pose proof (TimeWithinDay_range t) as Htw.
  destruct (TimeClip (MakeDate (MakeDay (YearFromTime t + delta)
                                  (MonthFromTime t) (DateFromTime t))
                        (TimeWithinDay t))) as [t1|] eqn:E1;
    [|discriminate].
  pose proof (TimeClip_Some _ _ E1) as Et.
  pose proof E1 as Hv1. rewrite <- Et in Hv1. clear E1. rename Et into E1.
  simpl in Hd. injection Hd as Hd.
  destruct (made_date_readback _ _ _ _ _ Hm Htw E1 Hd) as (HY & HM & HT).
  rewrite (changeCalendarYear_unfold _ _ Hv1), HY, HM, HT, Hd.
  replace (YearFromTime t + delta + - delta) with (YearFromTime t) by lia.
  rewrite Hback, MakeDate_Day. exact Hv.
Qed.

(** When the day of the month exists in the target month, the step adds
    [delta] to the month, carries into the year and keeps the day and
    the time of day. *)
Lemma changeCalendarMonth_fits (t delta : Z) :
  let M := MonthFromTime t + delta in
  let ym := YearFromTime t + M / 12 in
  let mn := M mod 12 in
  TimeClip t = Some t -> yearInRange ym ->
  DateFromTime t <= gregorian_days ym mn ->
  exists t1, changeCalendarMonth delta (Some t) = Some t1 /\
    YearFromTime t1 = ym /\ MonthFromTime t1 = mn /\
    DateFromTime t1 = DateFromTime t /\ TimeWithinDay t1 = TimeWithinDay t.
Proof.
  intros M ym mn Hv Hy Hfit.
  destruct (day_of_civil t) as (_ & Hdt & _).
  pose proof (TimeWithinDay_range t) as Htw.
  assert (Hmn : 0 <= mn <= 11) by (subst mn; Z.div_mod_to_equations; lia).
  rewrite (changeCalendarMonth_unfold _ _ Hv), MakeDay_carry.
  fold M. fold ym. fold mn.
  pose proof (MakeDay_in_range ym mn (DateFromTime t) Hy Hmn ltac:(lia)).
  rewrite TimeClip_days by lia.
  eexists. split; [reflexivity|].
  destruct (civil_of_day ym mn (DateFromTime t)
              (MakeDate (MakeDay ym mn (DateFromTime t)) (TimeWithinDay t))
              Hmn ltac:(lia) (Day_MakeDate _ _ Htw)) as (HY & HM & HD).
  repeat split; try assumption.
  apply TimeWithinDay_MakeDate, Htw.
Qed.


(** The forward step keeps the day of the month only if that day exists
    in the target month. *)
Lemma month_step_kept_fits (t delta : Z) :
  let M := MonthFromTime t + delta in
  TimeClip t = Some t ->
  getDate (changeCalendarMonth delta (Some t)) = getDate (Some t) ->
  DateFromTime t <= gregorian_days (YearFromTime t + M / 12) (M mod 12).
Proof.
  intros M Hv Hd. rewrite (changeCalendarMonth_unfold _ _ Hv) in Hd.
  fold M in Hd.
  destruct (TimeClip (MakeDate (MakeDay (YearFromTime t) M (DateFromTime t))
                        (TimeWithinDay t))) as [t1|] eqn:E1;
    [|discriminate].
  apply TimeClip_Some in E1. simpl in Hd. injection Hd as Hd.
  rewrite MakeDay_carry in E1.
  assert (HM12 : 0 <= M mod 12 <= 11) by (Z.div_mod_to_equations; lia).
  destruct (made_date_readback _ _ _ _ _ HM12 (TimeWithinDay_range t) E1 Hd)
    as (HY & HM & _).
  destruct (day_of_civil t1) as (_ & Hr & _).
  rewrite HY, HM, Hd in Hr. lia.
Qed.

(** When the day of the month does not exist in the target month, the
    step lands in the month after it. *)
Lemma changeCalendarMonth_rolls (t delta : Z) :
  let M := MonthFromTime t + delta in
  let ym := YearFromTime t + M / 12 in
  let mn := M mod 12 in
  TimeClip t = Some t -> yearInRange ym ->
  gregorian_days ym mn < DateFromTime t ->
  exists t1, changeCalendarMonth delta (Some t) = Some t1 /\
    YearFromTime t1 = ym /\ MonthFromTime t1 = mn + 1 /\
    DateFromTime t1 = DateFromTime t - gregorian_days ym mn.
Proof.
  intros M ym mn Hv Hy Hover.
  destruct (day_of_civil t) as (_ & Hdt & _).
  pose proof (gregorian_days_range (YearFromTime t) (MonthFromTime t)) as Hg.
  pose proof (gregorian_days_range ym mn) as Hg1.
  pose proof (gregorian_days_range ym (mn + 1)) as Hg2.
  pose proof (TimeWithinDay_range t) as Htw.
  assert (Hmn : 0 <= mn <= 11) by (subst mn; Z.div_mod_to_equations; lia).
  assert (Hshort : mn = 1 \/ mn = 3 \/ mn = 5 \/ mn = 8 \/ mn = 10).
  { revert Hover. clear -Hmn Hdt Hg. month_split Hmn; simpl; lia. }
  assert (Hnext : 0 <= mn + 1 <= 11) by lia.
  assert (Eday : MakeDay ym mn (DateFromTime t)
                 = MakeDay ym (mn + 1) (DateFromTime t - gregorian_days ym mn)).
  { rewrite !MakeDay_normal by assumption. unfold gregorian_days.
    destruct Hshort as [->|[->|[->|[->| ->]]]];
      destruct (gregorian_leap ym); simpl; lia. }
  rewrite (changeCalendarMonth_unfold _ _ Hv), MakeDay_carry.
  fold M. fold ym. fold mn. rewrite Eday.
  pose proof (MakeDay_in_range ym (mn + 1)
                (DateFromTime t - gregorian_days ym mn) Hy Hnext ltac:(lia)).
  rewrite TimeClip_days by lia.
  eexists. split; [reflexivity|].
  apply (civil_of_day ym (mn + 1)); [lia|lia|].
  apply Day_MakeDate, Htw.
Qed.

(** C4: the code does not clamp.  One month after 31 January 2025 it
    answers 3 March 2025, and one year after 29 February 2024 it answers
    1 March 2025. *)
Theorem step_rolls_over :
  changeCalendarMonth 1 jan31_2025 = construct (Some 2025) (Some 2) (Some 3)
  /\ getMonth (changeCalendarMonth 1 jan31_2025) = Some 2
  /\ changeCalendarYear 1 feb29_2024 = construct (Some 2025) (Some 2) (Some 1)
  /\ getMonth (changeCalendarYear 1 feb29_2024) = Some 2.
Proof. repeat split; vm_compute; reflexivity. Qed.



(** ** The occurrence generator *)

Lemma strictEqStr_true (v : option jsval) (s : string) :
  strictEqStr v s = true <-> v = Some (JStr s).
Proof.
  unfold strictEqStr. destruct v as [[| | |s'| |]|]; try (split; congruence).
  rewrite String.eqb_eq. split; congruence.
Qed.

Lemma Is_true_strictEqStr (v : option jsval) (s : string) :
  Is_true (strictEqStr v s) <-> v = Some (JStr s).
Proof. rewrite Is_true_true. apply strictEqStr_true. Qed.

Lemma loop_typed (y m : Z) (es ts : list doc) (days : list Z)
    (o : occurrences) :
  foldl (loopBody (ANum y) (ANum m) (AArr es) (AArr ts)) (Ok o) days
  = Ok (foldl (fun occ day =>
                 <[ dateString (ANum y) (ANum m) day :=
                      dayEntries es ts (dateString (ANum y) (ANum m) day) ]>
                   occ) o days).
Proof.
  revert o. induction days as [|d days IH]; intros o; [reflexivity|].
  simpl. apply IH.
Qed.

Lemma lookup_loop (key : Z -> string) (g : string -> list doc)
    (days : list Z) (o : occurrences) (k : string) :
  foldl (fun occ day => <[ key day := g (key day) ]> occ) o days !! k
  = if decide (k ∈ key <$> days) then Some (g k) else o !! k.
Proof.
  revert o. induction days as [|d days IH]; intros o; simpl.
  - destruct (decide (k ∈ [])) as [H|H]; [|reflexivity].
    apply elem_of_nil in H. destruct H.
  - rewrite IH.
    destruct (decide (k ∈ key <$> days)) as [H|H].
    + rewrite decide_True by (apply elem_of_cons; auto). reflexivity.
    + destruct (decide (k = key d)) as [->|Hne].
      * rewrite decide_True by (apply elem_of_cons; auto).
        apply lookup_insert_eq.
      * rewrite decide_False.
        -- apply lookup_insert_ne. congruence.
        -- intros [?|?]%elem_of_cons; [congruence|contradiction].
Qed.

(** The generator, called as declared, never throws, and its result is
    determined key by key. *)
Lemma generate_lookup (y m : Z) (es ts : list doc) :
  exists o : occurrences,
    generateOccurrencesForMonth (ANum y) (ANum m) (AArr es) (AArr ts) = Ok o
    /\ forall ds, o !! ds =
         if decide (ds ∈ monthDateStrings y m)
         then Some (dayEntries es ts ds) else None.
Proof.
  unfold generateOccurrencesForMonth. rewrite loop_typed.
  eexists. split; [reflexivity|]. intros ds.
  rewrite (lookup_loop (dateString (ANum y) (ANum m)) (dayEntries es ts)).
  unfold monthDateStrings. destruct (decide _); [reflexivity|].
  apply lookup_empty.
Qed.

Lemma generateKinds_lookup (k : kind) (own others : list doc) (y m : Z) :
  exists o : occurrences,
    generateKinds k own others y m = Ok o
    /\ forall ds, o !! ds =
         if decide (ds ∈ monthDateStrings y m)
         then Some (match k with
                    | KEvent => dayEntries own others ds
                    | KTask => dayEntries others own ds
                    end)
         else None.
Proof. destruct k; apply generate_lookup. Qed.

Lemma matching_app (l1 l2 : list doc) (field tag ds : string) :
  matching (l1 ++ l2) field tag ds
  = matching l1 field tag ds ++ matching l2 field tag ds.
Proof. unfold matching. rewrite filter_app, fmap_app. reflexivity. Qed.

Lemma matching_single (e : doc) (field tag ds : string) :
  matching [e] field tag ds
  = if strictEqStr (e !! field) ds then [e ∪ {[ "type" := JStr tag ]}] else [].
Proof.
  unfold matching. rewrite filter_cons, filter_nil.
  destruct (strictEqStr (e !! field) ds) eqn:E.
  - rewrite decide_True by exact I. reflexivity.
  - rewrite decide_False by (intros []). reflexivity.
Qed.

Lemma matching_nil (field tag ds : string) : matching [] field tag ds = [].
Proof. reflexivity. Qed.

(** An entity is listed under a date of the month exactly when its date
    field is that very string. *)
Lemma listedOn_generateFor (k : kind) (e : doc) (y m : Z) (ds : string) :
  ds ∈ monthDateStrings y m ->
  listedOn (generateFor k e y m) ds = strictEqStr (e !! dateField k) ds.
Proof.
  intros Hin. unfold generateFor.
  destruct (generateKinds_lookup k [e] [] y m) as (o & -> & Ho).
  unfold listedOn. rewrite Ho, decide_True by exact Hin.
  destruct k; unfold dayEntries, dateField;
    rewrite matching_single, matching_nil;
    destruct (strictEqStr _ ds); reflexivity.
Qed.

Lemma filter_ext_elem {A} (P Q : A -> Prop) `{!forall x, Decision (P x)}
    `{!forall x, Decision (Q x)} (l : list A) :
  (forall x, x ∈ l -> (P x <-> Q x)) -> filter P l = filter Q l.
Proof.
  induction l as [|a l IH]; intros Hext; [reflexivity|].
  rewrite !filter_cons.
  rewrite IH by (intros x Hx; apply Hext; apply elem_of_cons; auto).
  pose proof (Hext a ltac:(apply elem_of_cons; auto)) as Ha.
  destruct (decide (P a)) as [p|p], (decide (Q a)) as [q|q];
    try reflexivity; exfalso; tauto.
Qed.

Lemma expand_filter (k : kind) (e : doc) (y m : Z) :
  expand k e y m
  = filter (fun ds => strictEqStr (e !! dateField k) ds)
           (monthDateStrings y m).
Proof.
  unfold expand. apply filter_ext_elem. intros ds Hin.
  rewrite (listedOn_generateFor _ _ _ _ _ Hin). reflexivity.
Qed.

Lemma getDate_range (d : option Z) (n : Z) : getDate d = Some n -> 1 <= n <= 31.
Proof.
  destruct d as [t|]; [|discriminate]. simpl. intros [= <-].
  destruct (day_of_civil t) as (_ & H & _).
  pose proof (gregorian_days_range (YearFromTime t) (MonthFromTime t)). lia.
Qed.

Lemma loopDays_range (y m : jsarg) (d : Z) :
  d ∈ loopDays (daysInMonth y m) -> 1 <= d <= 31.
Proof.
  unfold loopDays, daysInMonth.
  destruct (getDate _) as [n|] eqn:E; [|intros []%elem_of_nil].
  apply getDate_range in E. rewrite elem_of_seqZ. lia.
Qed.


Lemma day_suffix_table : forallb daySuffixReads (seqZ 1 31) = true.
Proof. vm_compute. reflexivity. Qed.

Lemma day_suffix_readback (d : Z) :
  1 <= d <= 31 -> stringToNumber (padStart2 (pretty d)) = Some d.
Proof.
  intros H. pose proof day_suffix_table as T.
  rewrite forallb_forall in T.
  specialize (T d). unfold daySuffixReads in T.
  destruct (stringToNumber (padStart2 (pretty d))) as [n|].
  - f_equal. apply Z.eqb_eq, T, list_elem_of_In, elem_of_seqZ. lia.
  - discriminate T. apply list_elem_of_In, elem_of_seqZ. lia.
Qed.

Lemma dateString_inj (y m : jsarg) (d1 d2 : Z) :
  1 <= d1 <= 31 -> 1 <= d2 <= 31 ->
  dateString y m d1 = dateString y m d2 -> d1 = d2.
Proof.
  intros H1 H2 E. unfold dateString in E.
  do 4 apply String.app_inj in E.
  apply (f_equal stringToNumber) in E.
  rewrite !day_suffix_readback in E by assumption. congruence.
Qed.

Lemma NoDup_monthDateStrings (y m : Z) : NoDup (monthDateStrings y m).
Proof.
  unfold monthDateStrings. apply NoDup_fmap_2_strong.
  - intros d1 d2 H1 H2. apply dateString_inj; eapply loopDays_range; eassumption.
  - unfold loopDays. destruct (daysInMonth _ _); [apply NoDup_seqZ|constructor].
Qed.

Lemma filter_eq_NoDup (l : list string) (s : string) :
  NoDup l ->
  filter (fun x => strictEqStr (Some (JStr s)) x) l
  = if decide (s ∈ l) then [s] else [].
Proof.
  induction 1 as [|a l Hnotin Hnd IH]; [reflexivity|].
  rewrite filter_cons, IH. simpl.
  destruct (String.eqb_spec s a) as [->|Hne].
  - rewrite decide_True by exact I.
    rewrite decide_False by exact Hnotin.
    rewrite decide_True by (apply elem_of_cons; auto). reflexivity.
  - rewrite decide_False by (intros []).
    destruct (decide (s ∈ l)) as [Hin|Hout].
    + rewrite decide_True by (apply elem_of_cons; auto). reflexivity.
    + rewrite decide_False; [reflexivity|].
      intros [?|?]%elem_of_cons; [congruence|contradiction].
Qed.

Lemma filter_never (l : list string) (v : option jsval) :
  (forall s, s ∈ l -> v <> Some (JStr s)) ->
  filter (fun x => strictEqStr v x) l = [].
Proof.
  intros H. induction l as [|a l IH]; [reflexivity|].
  rewrite filter_cons, IH by (intros s Hs; apply H, elem_of_cons; auto).
  rewrite decide_False; [reflexivity|].
  rewrite Is_true_strictEqStr. apply H, elem_of_cons. auto.
Qed.

(** ** Expansion of one entity *)

Lemma expand_spec (k : kind) (e : doc) (y m : Z) (ds : string) :
  ds ∈ expand k e y m <->
  ds ∈ monthDateStrings y m /\ e !! dateField k = Some (JStr ds).
Proof.
  rewrite expand_filter, list_elem_of_filter, Is_true_strictEqStr. tauto.
Qed.

Lemma expand_at_most_one (k : kind) (e : doc) (y m : Z) :
  expand k e y m =
    match e !! dateField k with
    | Some (JStr ds) => if decide (ds ∈ monthDateStrings y m) then [ds] else []
    | _ => []
    end.
Proof.
  rewrite expand_filter.
  destruct (e !! dateField k) as [[| | |s| |]|];
    try (apply filter_never; intros; congruence).
  apply filter_eq_NoDup, NoDup_monthDateStrings.
Qed.







(** ** Entities without a usable date *)

Lemma matching_skip (l1 l2 : list doc) (e : doc) (field tag ds : string) :
  e !! field <> Some (JStr ds) ->
  matching (l1 ++ e :: l2) field tag ds = matching (l1 ++ l2) field tag ds.
Proof.
  intros Hne. rewrite !matching_app. f_equal.
  change (e :: l2) with ([e] ++ l2).
  rewrite matching_app, matching_single.
  destruct (strictEqStr (e !! field) ds) eqn:E; [|reflexivity].
  apply strictEqStr_true in E. contradiction.
Qed.

Lemma missingOrInvalid_no_match (v : option jsval) (y m : Z) :
  missingOrInvalid v y m ->
  forall ds, ds ∈ monthDateStrings y m -> v <> Some (JStr ds).
Proof. intros [->|H] ds Hin; [discriminate|exact (H ds Hin)]. Qed.

(** C8, as amended: an entity whose date field ([date] for an event,
    [dueDate] for a task; [startDate] is never read) is missing or
    spells no day of the month expands to nothing, the generator does
    not throw, and what it produces for the rest of the collection is
    what it produces without that entity. *)
Theorem undated_entity_is_skipped :
  forall (k : kind) (own1 own2 others : list doc) (e : doc) (y m : Z),
    missingOrInvalid (e !! dateField k) y m ->
    expand k e y m = []
    /\ (exists o, generateKinds k (own1 ++ e :: own2) others y m = Ok o)
    /\ generateKinds k (own1 ++ e :: own2) others y m
       = generateKinds k (own1 ++ own2) others y m.
Proof.
  intros k own1 own2 others e y m Hinv.
  pose proof (missingOrInvalid_no_match _ _ _ Hinv) as Hne.
  split.
  { rewrite expand_filter. apply filter_never. intros s Hs. apply Hne, Hs. }
  destruct (generateKinds_lookup k (own1 ++ e :: own2) others y m)
    as (o1 & E1 & L1).
  destruct (generateKinds_lookup k (own1 ++ own2) others y m)
    as (o2 & E2 & L2).
  split; [eauto|]. rewrite E1, E2. f_equal. apply map_eq. intros ds.
  rewrite L1, L2. destruct (decide (ds ∈ monthDateStrings y m)) as [Hin|];
    [|reflexivity].
  f_equal. specialize (Hne ds Hin).
  destruct k; unfold dayEntries, dateField in *;
    rewrite (matching_skip _ _ _ _ _ _ Hne); reflexivity.
Qed.

(** February 2025 with an event dated 30 February between two events of
    5 February. *)
Lemma undated_entity_is_skipped_witness :
  missingOrInvalid (garbledEvent !! dateField KEvent) 2025 1 /\
  expand KEvent garbledEvent 2025 1 = [] /\
  (exists o,
     generateKinds KEvent
       ([formEvent "2025-02-05"] ++ garbledEvent :: [weeklyOnFeb5]) []
       2025 1 = Ok o) /\
  generateKinds KEvent
    ([formEvent "2025-02-05"] ++ garbledEvent :: [weeklyOnFeb5]) [] 2025 1
  = generateKinds KEvent ([formEvent "2025-02-05"] ++ [weeklyOnFeb5]) []
      2025 1.
Proof.
  assert (H : missingOrInvalid (garbledEvent !! dateField KEvent) 2025 1).
  { right. intros ds Hin E.
    assert (Hds : ds = "2025-02-30") by (vm_compute in E; congruence).
    subst ds. revert Hin. vm_compute.
    intros Hin. repeat (apply elem_of_cons in Hin as [Hin|Hin];
                        [discriminate Hin|]).
    apply elem_of_nil in Hin. exact Hin. }
  split; [exact H|].
  exact (undated_entity_is_skipped KEvent [formEvent "2025-02-05"]
           [weeklyOnFeb5] [] garbledEvent 2025 1 H).
Defined.

(** C8 as stated fails: an event saved by the event form has no
    [startDate], and is listed on its [date]. *)
Lemma missing_startDate_still_listed :
  formEvent "2025-02-05" !! "startDate" = None
  /\ expand KEvent (formEvent "2025-02-05") 2025 1 = ["2025-02-05"]
  /\ expand KEvent (formEvent "2025-02-05") 2025 1 <> [].
Proof.
  split; [reflexivity|].
  split; [vm_compute; reflexivity|vm_compute; discriminate].
Qed.

(** ** The consumers in app.js *)

(** Called the way [app.js] calls it, the generator finds no valid
    month, runs its loop zero times and returns the empty object. *)
Lemma generate_swapped (all : list doc) (k : kind) (y m : Z) :
  generateOccurrencesForMonth (AArr all) (AKind k) (ANum y) (ANum m) = Ok ∅.
Proof.
  unfold generateOccurrencesForMonth, daysInMonth.
  assert (E : primToNumber (plus1 (AKind k)) = None) by (destruct k; reflexivity).
  rewrite E. unfold construct.
  destruct (argToNumber (AArr all)); reflexivity.
Qed.

(** C6: neither consumer delivers a sequence.  The list view and the
    day-detail view call an array method on the object the generator
    returns, which throws before any ordering takes place. *)
Theorem consumers_throw :
  (forall (parseDate : string -> option Z) (evs tks : list doc) (y m : Z),
      listViewEntries parseDate evs tks y m = Throw TypeError)
  /\ (forall (localeCompare : string -> string -> Z) (all : list doc)
        (k : kind) (y m day : Z),
      selectedDayEntries localeCompare all k y m day = Throw TypeError).
Proof.
  split.
  - intros parseDate evs tks y m. unfold listViewEntries.
    rewrite !generate_swapped. reflexivity.
  - intros localeCompare all k y m day. unfold selectedDayEntries.
    rewrite generate_swapped. reflexivity.
Qed.

(** Called as declared, the generator keeps the entities of a day in
    input order, whatever their start times. *)
Lemma generated_day_in_input_order (es ts : list doc) (y m : Z) (ds : string) :
  ds ∈ monthDateStrings y m ->
  exists o, generateOccurrencesForMonth (ANum y) (ANum m) (AArr es) (AArr ts)
            = Ok o
    /\ o !! ds = Some (matching es "date" "event" ds
                       ++ matching ts "dueDate" "task" ds).
Proof.
  intros Hin. destruct (generate_lookup y m es ts) as (o & E & L).
  exists o. split; [exact E|]. rewrite L, decide_True by exact Hin.
  reflexivity.
Qed.

(** ** Marking occurrences done *)

Lemma includes_true (l : list jsval) (d : string) :
  includes l d = true <-> JStr d ∈ l.
Proof.
  unfold includes. rewrite existsb_exists. split.
  - intros (x & Hin & Hx). apply strictEqStr_true in Hx.
    injection Hx as ->. apply list_elem_of_In, Hin.
  - intros Hin. exists (JStr d). split; [apply list_elem_of_In, Hin|].
    apply strictEqStr_true. reflexivity.
Qed.

Lemma includes_snoc (l : list jsval) (d : string) :
  includes (l ++ [JStr d]) d = true.
Proof. apply includes_true, elem_of_app. right. apply list_elem_of_singleton. reflexivity. Qed.

Lemma collectionOf_updateDoc (k : kind) (id : string) (fields : doc) (s : db) :
  collectionOf k (updateDoc k id fields s)
  = alter (fun d => fields ∪ d) id (collectionOf k s).
Proof. destruct k; reflexivity. Qed.

Lemma lookup_updateDoc (k : kind) (id : string) (fields e : doc) (s : db) :
  collectionOf k s !! id = Some e ->
  collectionOf k (updateDoc k id fields s) !! id = Some (fields ∪ e).
Proof.
  intros H. rewrite collectionOf_updateDoc, lookup_alter_eq, H. reflexivity.
Qed.

(** The two updates [handleMarkDoneClick] writes. *)
Lemma completed_update_fields (now : string) (e : doc) (f : string) :
  f <> "isCompleted" -> f <> "updatedAt" ->
  (({[ "isCompleted" := JBool true; "updatedAt" := JStr now ]} : doc) ∪ e) !! f
  = e !! f.
Proof.
  intros H1 H2. apply lookup_union_r.
  rewrite lookup_insert_ne by congruence.
  apply lookup_singleton_ne. congruence.
Qed.

Lemma dates_update_fields (now : string) (l : list jsval) (e : doc)
    (f : string) :
  f <> "completedOccurrencesDates" -> f <> "updatedAt" ->
  (({[ "completedOccurrencesDates" := JArr l; "updatedAt" := JStr now ]} : doc)
     ∪ e) !! f = e !! f.
Proof.
  intros H1 H2. apply lookup_union_r.
  rewrite lookup_insert_ne by congruence.
  apply lookup_singleton_ne. congruence.
Qed.

Lemma completed_update_flag (now : string) (e : doc) :
  (({[ "isCompleted" := JBool true; "updatedAt" := JStr now ]} : doc) ∪ e)
    !! "isCompleted" = Some (JBool true).
Proof. apply lookup_union_Some_l, lookup_insert_eq. Qed.

Lemma dates_update_dates (now : string) (l : list jsval) (e : doc) :
  (({[ "completedOccurrencesDates" := JArr l; "updatedAt" := JStr now ]} : doc)
     ∪ e) !! "completedOccurrencesDates" = Some (JArr l).
Proof. apply lookup_union_Some_l, lookup_insert_eq. Qed.

Lemma handleMarkDoneClick_found (id : string) (type : kind) (d now : string)
    (s : db) (e : doc) :
  collectionOf type s !! id = Some e ->
  handleMarkDoneClick id type d true now s =
    ((if perDate e then
        if includes (completedDates (e !! "completedOccurrencesDates")) d
        then s
        else updateDoc type id
               {[ "completedOccurrencesDates" :=
                    JArr (completedDates (e !! "completedOccurrencesDates")
                          ++ [JStr d]);
                  "updatedAt" := JStr now ]} s
      else updateDoc type id
             {[ "isCompleted" := JBool true; "updatedAt" := JStr now ]} s),
     markedDone type).
Proof.
  intros H. unfold handleMarkDoneClick, perDate, completedDates, markedDone.
  simpl negb. cbv iota. rewrite H.
  destruct (truthy (e !! "recurrence")
            && negb (strictEqStr (e !! "recurrence") "none"));
    [|reflexivity].
  destruct (includes _ d); reflexivity.
Qed.

Lemma perDate_string (e : doc) (r : string) :
  e !! "recurrence" = Some (JStr r) -> r <> "" ->
  perDate e = if decide (r = "none") then false else true.
Proof.
  intros H Hne. unfold perDate. rewrite H. simpl.
  destruct (String.eqb_spec r "") as [|_]; [contradiction|].
  destruct (String.eqb_spec r "none") as [->|Hn].
  - rewrite decide_True by reflexivity. reflexivity.
  - rewrite decide_False by exact Hn. reflexivity.
Qed.

(** What one confirmed click does to the completion fields of the
    entity it finds. *)
Lemma handleMarkDoneClick_effect (id : string) (type : kind) (d now : string)
    (s : db) (e : doc) :
  collectionOf type s !! id = Some e ->
  exists e1,
    collectionOf type (handleMarkDoneClick id type d true now s).1 !! id
    = Some e1
    /\ e1 !! "recurrence" = e !! "recurrence"
    /\ (if perDate e then
          e1 !! "isCompleted" = e !! "isCompleted"
          /\ exists l1,
               e1 !! "completedOccurrencesDates" = Some (JArr l1)
               /\ includes l1 d = true
               /\ forall x, x ∈ l1 <->
                   x ∈ completedDates (e !! "completedOccurrencesDates")
                   \/ x = JStr d
        else
          e1 !! "isCompleted" = Some (JBool true)
          /\ e1 !! "completedOccurrencesDates"
             = e !! "completedOccurrencesDates").
Proof.
  intros H. rewrite (handleMarkDoneClick_found _ _ _ _ _ _ H). simpl.
  destruct (perDate e) eqn:Hp.
  - destruct (includes (completedDates (e !! "completedOccurrencesDates")) d)
      eqn:Hi.
    + exists e. split; [exact H|]. split; [reflexivity|].
      split; [reflexivity|].
      unfold completedDates in *.
      destruct (e !! "completedOccurrencesDates") as [[| | | |l|]|];
        try discriminate Hi.
      exists l. split; [reflexivity|]. split; [exact Hi|].
      intros x. split; [auto|]. intros [Hx| ->]; [exact Hx|].
      apply includes_true, Hi.
    + eexists. split; [apply lookup_updateDoc, H|].
      split; [apply dates_update_fields; congruence|].
      split; [apply dates_update_fields; congruence|].
      eexists. split; [apply dates_update_dates|].
      split; [apply includes_snoc|].
      intros x. rewrite elem_of_app, list_elem_of_singleton. tauto.
  - eexists. split; [apply lookup_updateDoc, H|].
    split; [apply completed_update_fields; congruence|].
    split; [apply completed_update_flag|].
    apply completed_update_fields; congruence.
Qed.

Lemma handleMarkDoneClick_toast (id : string) (type : kind) (d now : string)
    (s : db) (e : doc) :
  collectionOf type s !! id = Some e ->
  (handleMarkDoneClick id type d true now s).2 = markedDone type.
Proof. intros H. rewrite (handleMarkDoneClick_found _ _ _ _ _ _ H). reflexivity. Qed.

(** A second click on the same entity and date leaves the completion
    fields as the first one set them. *)
Lemma handleMarkDoneClick_twice (id : string) (type : kind)
    (d now now' : string) (s : db) (e : doc) :
  collectionOf type s !! id = Some e ->
  let s1 := (handleMarkDoneClick id type d true now s).1 in
  let s2 := (handleMarkDoneClick id type d true now' s1).1 in
  completionState type id s2 = completionState type id s1
  /\ (handleMarkDoneClick id type d true now' s1).2 = markedDone type.
Proof.
  intros H s1 s2.
  destruct (handleMarkDoneClick_effect id type d now s e H)
    as (e1 & H1 & Hr & Heff).
  fold s1 in H1.
  split; [|exact (handleMarkDoneClick_toast _ _ _ _ _ _ H1)].
  unfold s2. rewrite (handleMarkDoneClick_found _ _ _ _ _ _ H1). simpl.
  assert (Hp : perDate e1 = perDate e) by (unfold perDate; rewrite Hr; reflexivity).
  rewrite Hp. destruct (perDate e).
  - destruct Heff as (_ & l1 & Hl1 & Hin & _).
    rewrite Hl1. simpl. rewrite Hin. reflexivity.
  - destruct Heff as (Hflag & _).
    unfold completionState.
    rewrite (lookup_updateDoc _ _ _ _ _ H1), H1. simpl. f_equal. f_equal.
    + rewrite completed_update_flag, Hflag. reflexivity.
    + apply completed_update_fields; congruence.
Qed.



Lemma perDate_absent (e : doc) :
  e !! "recurrence" = None \/ e !! "recurrence" = Some JNull
  \/ e !! "recurrence" = Some (JStr "") ->
  perDate e = false.
Proof. unfold perDate. intros [->|[->| ->]]; reflexivity. Qed.

Lemma perDate_true (e : doc) :
  perDate e = true ->
  truthy (e !! "recurrence") = true /\ e !! "recurrence" <> Some (JStr "none").
Proof.
  unfold perDate. intros [Ht Hn]%andb_true_iff. split; [exact Ht|].
  intros E. rewrite E in Hn. discriminate Hn.
Qed.



(** The writers of [data-service.js] say nothing when the entity is not
    stored. *)
Lemma markOccurrenceDone_missing (k : kind) (userId today id : string) (s : db) :
  userId <> "" -> collectionOf k s !! id = None ->
  markOccurrenceDone k (Some userId) today id s = (s, []).
Proof.
  intros Hu H. unfold markOccurrenceDone. simpl.
  destruct (String.eqb_spec userId ""); [contradiction|]. simpl.
  rewrite H. reflexivity.
Qed.

(** [handleMarkDoneClick] reports the missing entity. *)
Lemma handleMarkDoneClick_missing (id : string) (type : kind) (d now : string)
    (s : db) :
  collectionOf type s !! id = None ->
  handleMarkDoneClick id type d true now s
  = (s, [("Error: Original " +:+ kind_str type +:+ " not found.", error)]).
Proof. intros H. unfold handleMarkDoneClick. simpl. rewrite H. reflexivity. Qed.

(** C5: for an id that is not stored, [handleMarkDoneClick] shows the
    not-found error, while [markEventOccurrenceDone] and
    [markTaskOccurrenceDone] change nothing and show nothing. *)
Theorem markOccurrenceDone_silent_when_missing :
  markEventOccurrenceDone (Some "user-1") "2025-03-02" "no-such-id" sampleDb
  = (sampleDb, [])
  /\ markTaskOccurrenceDone (Some "user-1") "2025-03-02" "no-such-id" sampleDb
     = (sampleDb, [])
  /\ handleMarkDoneClick "no-such-id" KEvent "2025-03-02" true
       "2025-03-02T09:00:00.000Z" sampleDb
     = (sampleDb, [("Error: Original event not found.", error)]).
Proof.
  split; [|split].
  - apply markOccurrenceDone_missing; [discriminate|vm_compute; reflexivity].
  - apply markOccurrenceDone_missing; [discriminate|vm_compute; reflexivity].
  - apply handleMarkDoneClick_missing. vm_compute. reflexivity.
Qed.

(** [markEventOccurrenceDone] on a stored entity records today once: a
    second call the same day finds the date and writes nothing. *)
Lemma markOccurrenceDone_twice (k : kind) (userId today id : string) (s : db)
    (e : doc) (l : list jsval) :
  userId <> "" -> collectionOf k s !! id = Some e ->
  e !! "completedOccurrences" = Some (JArr l) ->
  let s1 := (markOccurrenceDone k (Some userId) today id s).1 in
  (markOccurrenceDone k (Some userId) today id s1).1 = s1.
Proof.
  intros Hu H Hl s1. subst s1. unfold markOccurrenceDone. simpl.
  destruct (String.eqb_spec userId ""); [contradiction|]. simpl.
  rewrite H. unfold orElse. rewrite Hl. simpl.
  destruct (includes l today) eqn:Hi; simpl.
  - rewrite H. rewrite Hl. simpl. rewrite Hi. reflexivity.
  - rewrite (lookup_updateDoc _ _ _ _ _ H).
    rewrite (lookup_union_Some_l _ _ _ _ (lookup_singleton_eq _ _)).
    simpl. rewrite includes_snoc. reflexivity.
Qed.

(** ** Further properties of the calendar functions *)

Lemma MakeDay_date (y m dt : Z) : MakeDay y m dt = MakeDay y m 0 + dt.
Proof. unfold MakeDay. lia. Qed.

(** Day 0 of month [m + 1] is the last day of month [m], for every
    month index. *)
Lemma MakeDay_month_end_carry (y m : Z) :
  MakeDay y (m + 1) 0
  = MakeDay (y + m / 12) (m mod 12) (gregorian_days (y + m / 12) (m mod 12)).
Proof.
  assert (Hm : 0 <= m mod 12 <= 11) by (Z.div_mod_to_equations; lia).
  rewrite <- (MakeDay_month_end _ _ Hm).
  rewrite (MakeDay_carry y (m + 1)), (MakeDay_carry (y + m / 12)).
  f_equal; Z.div_mod_to_equations; lia.
Qed.

Lemma daysInMonth_number (year month : Z) :
  daysInMonth (ANum year) (ANum month)
  = getDate (TimeClip (MakeDate
      (MakeDay (if (0 <=? year) && (year <=? 99) then 1900 + year else year)
         (month + 1) 0) 0)).
Proof. reflexivity. Qed.



Lemma WeekDay_range (t : Z) : 0 <= WeekDay t <= 6.
Proof. unfold WeekDay. Z.div_mod_to_equations. lia. Qed.

Lemma construct_Some (y m dt : option Z) (t : Z) :
  construct y m dt = Some t ->
  exists y' m' dt', y = Some y' /\ m = Some m' /\ dt = Some dt' /\
    t = MakeDate
          (MakeDay (if (0 <=? y') && (y' <=? 99) then 1900 + y' else y')
             m' dt') 0.
Proof.
  unfold construct. destruct y as [y'|], m as [m'|], dt as [dt'|];
    try discriminate.
  intros H%TimeClip_Some. exists y', m', dt'. auto.
Qed.

Lemma Day_MakeDate_0 (day : Z) : Day (MakeDate day 0) = day.
Proof. apply Day_MakeDate. unfold msPerDay. lia. Qed.

(** X2. Weekdays chain from month to month: whenever the three values
    are numbers, the weekday of the first of month [month + 1] is the
    weekday of the first of [month] advanced by [daysInMonth], modulo 7,
    and a first weekday lies in 0..6. *)
Theorem firstDayOfMonth_chains :
  forall (year month d0 n d1 : Z),
    firstDayOfMonth (ANum year) (ANum month) = Some d0 ->
    daysInMonth (ANum year) (ANum month) = Some n ->
    firstDayOfMonth (ANum year) (ANum (month + 1)) = Some d1 ->
    0 <= d0 <= 6 /\ d1 = (d0 + n) mod 7.
Proof.
  intros year month d0 n d1 H0 Hn H1.
  unfold firstDayOfMonth, daysInMonth, getDay, getDate in *.
  simpl argToNumber in *. simpl primToNumber in *.
  destruct (construct (Some year) (Some month) (Some 1)) as [tA|] eqn:EA;
    [|discriminate].
  destruct (construct (Some year) (Some (month + 1)) (Some 0)) as [t0|] eqn:E0;
    [|discriminate].
  destruct (construct (Some year) (Some (month + 1)) (Some 1)) as [tB|] eqn:EB;
    [|discriminate].
  simpl in H0, Hn, H1. injection H0 as <-. injection Hn as <-.
  injection H1 as <-.
  split; [apply WeekDay_range|].
  apply construct_Some in EA as (? & ? & ? & [= <-] & [= <-] & [= <-] & ->).
  apply construct_Some in E0 as (? & ? & ? & [= <-] & [= <-] & [= <-] & ->).
  apply construct_Some in EB as (? & ? & ? & [= <-] & [= <-] & [= <-] & ->).
  set (yr := if (0 <=? year) && (year <=? 99) then 1900 + year else year).
  assert (Hm : 0 <= month mod 12 <= 11) by (Z.div_mod_to_equations; lia).
  pose proof (gregorian_days_range (yr + month / 12) (month mod 12)) as Hg.
  assert (Hlast : DateFromTime (MakeDate (MakeDay yr (month + 1) 0) 0)
                  = gregorian_days (yr + month / 12) (month mod 12)).
  { apply (civil_of_day (yr + month / 12) (month mod 12)); [lia|lia|].
    rewrite Day_MakeDate_0. apply MakeDay_month_end_carry. }
  rewrite Hlast. unfold WeekDay. rewrite !Day_MakeDate_0.
  rewrite (MakeDay_date yr (month + 1) 1), MakeDay_month_end_carry.
  rewrite (MakeDay_carry yr month 1).
  rewrite (MakeDay_date _ _ (gregorian_days _ _)), (MakeDay_date _ _ 1).
  Z.div_mod_to_equations. lia.
Qed.

(** January 2025 starts on a Wednesday and has 31 days; February starts
    on a Saturday. *)
Lemma firstDayOfMonth_chains_witness :
  firstDayOfMonth (ANum 2025) (ANum 0) = Some 3 /\
  daysInMonth (ANum 2025) (ANum 0) = Some 31 /\
  firstDayOfMonth (ANum 2025) (ANum (0 + 1)) = Some 6 /\
  0 <= 3 <= 6 /\ 6 = (3 + 31) mod 7.
Proof.
  assert (H0 : firstDayOfMonth (ANum 2025) (ANum 0) = Some 3)
    by (vm_compute; reflexivity).
  assert (Hn : daysInMonth (ANum 2025) (ANum 0) = Some 31)
    by (vm_compute; reflexivity).
  assert (H1 : firstDayOfMonth (ANum 2025) (ANum (0 + 1)) = Some 6)
    by (vm_compute; reflexivity).
  split; [exact H0|]. split; [exact Hn|]. split; [exact H1|].
  exact (firstDayOfMonth_chains 2025 0 3 31 6 H0 Hn H1).
Defined.

(** ** Further properties of month and year stepping *)

(** X3. Twelve month steps are one year step: for every date, valid or
    not, and every [k], stepping by [12 * k] months gives the very date
    that stepping by [k] years gives. *)
Theorem twelve_months_are_a_year :
  forall (k : Z) (d : option Z),
    changeCalendarMonth (12 * k) d = changeCalendarYear k d.
Proof.
  intros k [t|]; [|reflexivity].
  unfold changeCalendarMonth, changeCalendarYear, copyDate. simpl.
  destruct (TimeClip t) as [u|] eqn:E; [|reflexivity].
  apply TimeClip_Some in E. subst u. simpl. do 2 f_equal.
  rewrite MakeDay_carry, (MakeDay_carry (YearFromTime t + k)).
  destruct (day_of_civil t) as (Hm & _).
  f_equal; Z.div_mod_to_equations; lia.
Qed.

Lemma step_time_of_day (delta t t1 : Z) :
  TimeClip t = Some t ->
  changeCalendarMonth delta (Some t) = Some t1 ->
  TimeWithinDay t1 = TimeWithinDay t.
Proof.
  intros Hv H. rewrite (changeCalendarMonth_unfold _ _ Hv) in H.
  apply TimeClip_Some in H. subst t1.
  apply TimeWithinDay_MakeDate, TimeWithinDay_range.
Qed.







(** ** The month grid *)

Lemma daysInMonth_regular (year month : Z) :
  yearInRange year -> year <> 0 -> 0 <= month <= 11 ->
  daysInMonth (ANum year) (ANum month) = Some (gregorian_days year month).
Proof.
  intros Hy H0 Hm. rewrite daysInMonth_number.
  destruct (Z.leb_spec 0 year); destruct (Z.leb_spec year 99); cbn [andb];
    try (apply month_end_date; assumption).
  rewrite month_end_date by (unfold yearInRange in *; lia).
  rewrite gregorian_days_two_digit by lia. reflexivity.
Qed.

Lemma firstDayOfMonth_range (year month : jsarg) (d : Z) :
  firstDayOfMonth year month = Some d -> 0 <= d <= 6.
Proof.
  unfold firstDayOfMonth, getDay.
  destruct (construct _ _ _) as [t|]; [|discriminate].
  intros [= <-]. apply WeekDay_range.
Qed.

Lemma daysInMonth_range (year month : jsarg) (n : Z) :
  daysInMonth year month = Some n -> 1 <= n <= 31.
Proof. unfold daysInMonth. apply getDate_range. Qed.

(** X7. The grid always fits six rows of seven: [renderCalendarView]
    does not throw, puts at most six blanks in front and produces at
    most 37 cells, whatever the date, the events and the tasks. *)
Theorem grid_fits_six_weeks :
  forall (currentDate today : option Z) (evs tks : list doc),
    exists cells,
      renderCalendarView currentDate today evs tks = Ok cells
      /\ (length (filter (fun c => cellIsBlank c) cells) <= 6)%nat
      /\ (length cells <= 37)%nat.
Proof.
  intros [t|] today evs tks; [|exists []; repeat split; cbn; lia].
  unfold renderCalendarView.
  destruct (generate_lookup (YearFromTime t) (MonthFromTime t) evs tks)
    as (o & -> & _).
  eexists. split; [reflexivity|].
  set (firstDay := firstDayOfMonth _ _).
  set (days := daysInMonth _ _).
  assert (Hb : (Z.to_nat (default 0%Z firstDay) <= 6)%nat).
  { destruct firstDay as [d|] eqn:E; cbn; [|lia].
    apply firstDayOfMonth_range in E. lia. }
  assert (Hd : (length (loopDays days) <= 31)%nat).
  { unfold loopDays. destruct days as [n|] eqn:E; cbn [length]; [|lia].
    apply daysInMonth_range in E. rewrite length_seqZ. lia. }
  split.
  - rewrite filter_app.
    rewrite length_app.
    pose proof (length_filter (fun c => cellIsBlank c)
                  (replicate (Z.to_nat (default 0 firstDay)) Blank)) as H1.
    rewrite length_replicate in H1.
    assert (H2 : filter (fun c => cellIsBlank c)
                   (dayCell (YearFromTime t) (MonthFromTime t)
                      (getTodayDateString today) o <$> loopDays days) = []).
    { generalize (loopDays days). intros l.
      induction l as [|d l IH]; [reflexivity|].
      rewrite fmap_cons, filter_cons_False by (intros []). exact IH. }
    rewrite H2. cbn [length]. lia.
  - rewrite length_app, length_replicate, length_fmap. lia.
Qed.

Lemma filter_fmap_singleton {A B} (f : A -> B) (P : B -> Prop)
    `{!forall x, Decision (P x)} (l : list A) (a : A) :
  NoDup l -> a ∈ l -> (forall x, x ∈ l -> (P (f x) <-> x = a)) ->
  filter P (f <$> l) = [f a].
Proof.
  induction 1 as [|x l Hnotin Hnd IH]; intros Hin Hiff.
  - apply elem_of_nil in Hin. destruct Hin.
  - rewrite fmap_cons, filter_cons.
    destruct (decide (P (f x))) as [Hp|Hp].
    + assert (x = a) as -> by (apply Hiff; [apply elem_of_cons|]; auto).
      f_equal. clear IH.
      assert (Hnone : forall y, y ∈ l -> ~ P (f y)).
      { intros y Hy Hq. apply Hiff in Hq; [|apply elem_of_cons; auto].
        subst y. contradiction. }
      clear -Hnone. induction l as [|y l IH]; [reflexivity|].
      rewrite fmap_cons, filter_cons_False
        by (apply Hnone, elem_of_cons; auto).
      apply IH. intros z Hz. apply Hnone, elem_of_cons. auto.
    + assert (Hne : x <> a).
      { intros ->. apply Hp, Hiff; [apply elem_of_cons|]; auto. }
      apply IH.
      * apply elem_of_cons in Hin as [->|Hin]; [contradiction|exact Hin].
      * intros y Hy. apply Hiff, elem_of_cons. auto.
Qed.

Lemma getTodayDateString_dateString (now : Z) :
  getTodayDateString (Some now)
  = dateString (ANum (YearFromTime now)) (ANum (MonthFromTime now))
      (DateFromTime now).
Proof. reflexivity. Qed.

(** X8. Today is highlighted once: when the grid shows the month that
    today falls in (any year of the range of [Date] but year 0), exactly
    one cell is marked as today, the day cell of today's day of the
    month. *)
Theorem today_is_highlighted_once :
  forall (t now : Z) (evs tks : list doc),
    YearFromTime now = YearFromTime t ->
    MonthFromTime now = MonthFromTime t ->
    yearInRange (YearFromTime t) -> YearFromTime t <> 0 ->
    exists cells hasEvents hasTasks,
      renderCalendarView (Some t) (Some now) evs tks = Ok cells
      /\ filter (fun c => cellIsToday c) cells
         = [DayCell (DateFromTime now) (getTodayDateString (Some now)) true
              hasEvents hasTasks].
Proof.
  intros t now evs tks EY EM Hy H0.
  destruct (day_of_civil now) as (Hm & Hd & _).
  rewrite EM in Hm. rewrite EY, EM in Hd.
  unfold renderCalendarView.
  destruct (generate_lookup (YearFromTime t) (MonthFromTime t) evs tks)
    as (o & -> & _).
  rewrite (daysInMonth_regular _ _ Hy H0 Hm).
  rewrite getTodayDateString_dateString, EY, EM.
  set (Y := YearFromTime t) in *. set (M := MonthFromTime t) in *.
  set (D := DateFromTime now) in *.
  pose proof (gregorian_days_range Y M) as Hg.
  eexists. exists (someOfType "event" (default [] (o !! dateString (ANum Y) (ANum M) D))).
  exists (someOfType "task" (default [] (o !! dateString (ANum Y) (ANum M) D))).
  split; [reflexivity|].
  rewrite filter_app.
  assert (Hblank : forall n, filter (fun c => cellIsToday c)
                               (replicate n Blank) = []).
  { induction n as [|n IH]; [reflexivity|].
    cbn [replicate]. rewrite filter_cons_False by (intros []). exact IH. }
  rewrite Hblank. cbn [app loopDays].
  rewrite (filter_fmap_singleton _ _ _ D).
  - unfold dayCell. rewrite String.eqb_refl. reflexivity.
  - apply NoDup_seqZ.
  - apply elem_of_seqZ. lia.
  - intros d Hin%elem_of_seqZ. unfold dayCell, cellIsToday.
    rewrite Is_true_true, String.eqb_eq. split.
    + apply dateString_inj; lia.
    + intros ->. reflexivity.
Qed.

(** 15 January 2025 at noon, on the grid of January 2025. *)
Lemma today_is_highlighted_once_witness :
  YearFromTime jan15_2025_noon = YearFromTime 1735689600000 /\
  MonthFromTime jan15_2025_noon = MonthFromTime 1735689600000 /\
  yearInRange (YearFromTime 1735689600000) /\
  YearFromTime 1735689600000 <> 0 /\
  exists cells hasEvents hasTasks,
    renderCalendarView (Some 1735689600000) (Some jan15_2025_noon)
      [formEvent "2025-01-15"] [] = Ok cells
    /\ filter (fun c => cellIsToday c) cells
       = [DayCell (DateFromTime jan15_2025_noon)
            (getTodayDateString (Some jan15_2025_noon)) true
            hasEvents hasTasks].
Proof.
  assert (EY : YearFromTime jan15_2025_noon = YearFromTime 1735689600000)
    by (vm_compute; reflexivity).
  assert (EM : MonthFromTime jan15_2025_noon = MonthFromTime 1735689600000)
    by (vm_compute; reflexivity).
  assert (Hy : yearInRange (YearFromTime 1735689600000))
    by (unfold yearInRange; vm_compute; split; discriminate).
  assert (H0 : YearFromTime 1735689600000 <> 0)
    by (vm_compute; discriminate).
  split; [exact EY|]. split; [exact EM|]. split; [exact Hy|].
  split; [exact H0|].
  exact (today_is_highlighted_once 1735689600000 jan15_2025_noon
           [formEvent "2025-01-15"] [] EY EM Hy H0).
Defined.

(** ** Further properties of the generator *)

Lemma lookup_tagged_type (tag : string) (e : doc) :
  tagged tag e !! "type"
  = match e !! "type" with Some v => Some v | None => Some (JStr tag) end.
Proof.
  unfold tagged. destruct (e !! "type") as [v|] eqn:E.
  - apply lookup_union_Some_l, E.
  - rewrite lookup_union_r by exact E. apply lookup_singleton_eq.
Qed.

Lemma lookup_tagged_other (tag : string) (e : doc) (f : string) :
  f <> "type" -> tagged tag e !! f = e !! f.
Proof.
  intros Hne. unfold tagged.
  destruct (e !! f) as [v|] eqn:E.
  - apply lookup_union_Some_l, E.
  - rewrite lookup_union_r by exact E. apply lookup_singleton_ne. congruence.
Qed.

Lemma elem_of_matching (l : list doc) (field tag ds : string) (occ : doc) :
  occ ∈ matching l field tag ds <->
  exists e, e ∈ l /\ e !! field = Some (JStr ds) /\ occ = tagged tag e.
Proof.
  unfold matching. rewrite list_elem_of_fmap. split.
  - intros (e & -> & He). apply list_elem_of_filter in He as [Hm Hin].
    apply Is_true_strictEqStr in Hm. exists e. auto.
  - intros (e & Hin & Hm & ->). exists e. split; [reflexivity|].
    apply list_elem_of_filter. split; [|exact Hin].
    apply Is_true_strictEqStr, Hm.
Qed.


(** X10. What is listed under a day: an occurrence appears under a date
    of the month exactly when it is the tagged copy of an event whose
    [date], or of a task whose [dueDate], is that very string; the copy
    keeps every field of the entity, and the entity's own [type], when
    it has one, replaces the tag. *)
Theorem generator_lists_tagged_copies :
  forall (y m : Z) (es ts : list doc) (o : occurrences) (ds : string)
         (l : list doc),
    generateOccurrencesForMonth (ANum y) (ANum m) (AArr es) (AArr ts) = Ok o ->
    o !! ds = Some l ->
    (forall occ, occ ∈ l <->
       (exists e, e ∈ es /\ e !! "date" = Some (JStr ds)
                  /\ occ = tagged "event" e)
       \/ (exists e, e ∈ ts /\ e !! "dueDate" = Some (JStr ds)
                     /\ occ = tagged "task" e))
    /\ (forall tag e f, f <> "type" -> tagged tag e !! f = e !! f)
    /\ (forall tag e v, e !! "type" = Some v -> tagged tag e !! "type" = Some v).
Proof.
  intros y m es ts o ds l E Hl.
  destruct (generate_lookup y m es ts) as (o' & E' & L).
  rewrite E in E'. injection E' as <-.
  rewrite L in Hl. destruct (decide (ds ∈ monthDateStrings y m));
    [|discriminate]. injection Hl as <-.
  split; [|split].
  - intros occ. unfold dayEntries.
    rewrite elem_of_app, !elem_of_matching. reflexivity.
  - intros tag e0 f. apply lookup_tagged_other.
  - intros tag e0 v Hv. rewrite lookup_tagged_type, Hv. reflexivity.
Qed.

(** February 2025 with the weekly event dated 5 February. *)
Lemma generator_lists_tagged_copies_witness :
  exists o l,
    generateOccurrencesForMonth (ANum 2025) (ANum 1) (AArr [weeklyOnFeb5])
      (AArr []) = Ok o
    /\ o !! "2025-02-05" = Some l
    /\ forall occ, occ ∈ l <->
         (exists e, e ∈ [weeklyOnFeb5]
                    /\ e !! "date" = Some (JStr "2025-02-05")
                    /\ occ = tagged "event" e)
         \/ (exists e, e ∈ [] /\ e !! "dueDate" = Some (JStr "2025-02-05")
                       /\ occ = tagged "task" e).
Proof.
  destruct (generate_lookup 2025 1 [weeklyOnFeb5] []) as (o & E & L).
  assert (Hl : o !! "2025-02-05"
               = Some (dayEntries [weeklyOnFeb5] [] "2025-02-05")).
  { rewrite L. apply decide_True. vm_compute.
    do 4 apply list_elem_of_further. apply list_elem_of_here. }
  exists o, (dayEntries [weeklyOnFeb5] [] "2025-02-05").
  split; [exact E|]. split; [exact Hl|].
  exact (proj1 (generator_lists_tagged_copies 2025 1 [weeklyOnFeb5] [] o
                  "2025-02-05" _ E Hl)).
Defined.

Lemma loop_arrays (year month : jsarg) (es ts : list doc) (days : list Z)
    (o : occurrences) :
  exists o', foldl (loopBody year month (AArr es) (AArr ts)) (Ok o) days
             = Ok o'.
Proof.
  revert o. induction days as [|d days IH]; intros o; [eauto|].
  cbn [foldl]. apply IH.
Qed.

Lemma loop_thrown (year month a b : jsarg) (days : list Z) :
  foldl (loopBody year month a b) (Throw TypeError) days = Throw TypeError.
Proof. induction days as [|d days IH]; [reflexivity|exact IH]. Qed.

Lemma loopBody_not_array (year month a b : jsarg) (o : occurrences) (d : Z) :
  isArray a && isArray b = false ->
  loopBody year month a b (Ok o) d = Throw TypeError.
Proof.
  intros H. unfold loopBody. cbn [mbind jsresult_bind].
  destruct a as [| |l]; try reflexivity.
  destruct b as [| |l']; try reflexivity. discriminate H.
Qed.

(** X11. When the generator throws: it throws a TypeError exactly when
    [daysInMonth] is a number and one of the two collections is not an
    array; for a month that [Date] cannot represent it returns the empty
    object whatever it is given. *)
Theorem generator_throws_iff :
  forall (year month a b : jsarg),
    (generateOccurrencesForMonth year month a b = Throw TypeError <->
     is_Some (daysInMonth year month) /\ isArray a && isArray b = false)
    /\ (daysInMonth year month = None ->
        generateOccurrencesForMonth year month a b = Ok ∅).
Proof.
  intros year month a b. unfold generateOccurrencesForMonth.
  split; [|intros ->; reflexivity].
  destruct (daysInMonth year month) as [n|] eqn:En.
  - pose proof (daysInMonth_range _ _ _ En) as Hn.
    destruct (isArray a && isArray b) eqn:Harr.
    + apply andb_true_iff in Harr as [Ha Hb].
      destruct a as [| |es]; try discriminate Ha.
      destruct b as [| |ts]; try discriminate Hb.
      destruct (loop_arrays year month es ts (loopDays (Some n)) ∅)
        as (o' & ->).
      split; [discriminate|intros [_ [=]]].
    + split; [intros _; split; [eauto|reflexivity]|intros _].
      cbn [loopDays]. rewrite (seqZ_cons 1 n) by lia. cbn [foldl].
      rewrite (loopBody_not_array _ _ _ _ _ _ Harr). apply loop_thrown.
  - cbn [loopDays foldl]. split; [discriminate|intros [[? [=]] _]].
Qed.

(** A year beyond the range of [Date], with numbers in place of the
    collections. *)
Lemma generator_throws_iff_witness :
  daysInMonth (ANum 300000) (ANum 1) = None /\
  generateOccurrencesForMonth (ANum 300000) (ANum 1) (ANum 7) (ANum 8) = Ok ∅.
Proof.
  assert (H : daysInMonth (ANum 300000) (ANum 1) = None) by reflexivity.
  split; [exact H|].
  exact (proj2 (generator_throws_iff (ANum 300000) (ANum 1) (ANum 7) (ANum 8))
           H).
Defined.

Lemma bind_Ok {A B} (a : A) (f : A -> jsresult B) : (Ok a ≫= f) = f a.
Proof. reflexivity. Qed.
Lemma Ok_inj {A} (a b : A) : Ok a = Ok b -> a = b.
Proof. intros [= ->]. reflexivity. Qed.

Lemma renderCalendarView_cells (t : Z) (today : option Z) (evs tks : list doc)
    (cells : list cell) :
  renderCalendarView (Some t) today evs tks = Ok cells ->
  exists o,
    generateOccurrencesForMonth (ANum (YearFromTime t))
      (ANum (MonthFromTime t)) (AArr evs) (AArr tks) = Ok o
    /\ cells =
       replicate (Z.to_nat (default 0
                    (firstDayOfMonth (ANum (YearFromTime t))
                       (ANum (MonthFromTime t))))) Blank ++
       (dayCell (YearFromTime t) (MonthFromTime t)
          (getTodayDateString today) o <$>
        loopDays (daysInMonth (ANum (YearFromTime t))
                    (ANum (MonthFromTime t)))).
Proof.
  intros Hr.
  destruct (generate_lookup (YearFromTime t) (MonthFromTime t) evs tks)
    as (o & E & L).
  exists o. split; [exact E|].
  assert (Heq : renderCalendarView (Some t) today evs tks
                = Ok (replicate (Z.to_nat (default 0
                    (firstDayOfMonth (ANum (YearFromTime t))
                       (ANum (MonthFromTime t))))) Blank ++
       (dayCell (YearFromTime t) (MonthFromTime t)
          (getTodayDateString today) o <$>
        loopDays (daysInMonth (ANum (YearFromTime t))
                    (ANum (MonthFromTime t)))))).
  { unfold renderCalendarView. rewrite E. reflexivity. }
  rewrite Heq in Hr. apply Ok_inj in Hr. symmetry. exact Hr.
Qed.

Lemma dayCell_inv (y m : Z) (today : string) (o : occurrences) (day d : Z)
    (ds : string) (isToday hasEvents hasTasks : bool) :
  DayCell d ds isToday hasEvents hasTasks = dayCell y m today o day ->
  ds = dateString (ANum y) (ANum m) day
  /\ hasEvents = someOfType "event" (default [] (o !! ds))
  /\ hasTasks = someOfType "task" (default [] (o !! ds)).
Proof. unfold dayCell. intros [= -> -> -> -> ->]. auto. Qed.

Lemma someOfType_matching (tag tag0 field ds : string) (l : list doc) :
  someOfType tag (matching l field tag0 ds) = true <->
  exists e, e ∈ l /\ e !! field = Some (JStr ds)
            /\ (e !! "type" = Some (JStr tag)
                \/ (e !! "type" = None /\ tag0 = tag)).
Proof.
  unfold someOfType. rewrite existsb_exists. split.
  - intros (occ & Hin & Hty). apply list_elem_of_In in Hin.
    apply elem_of_matching in Hin as (e & He & Hd & ->).
    exists e. split; [exact He|]. split; [exact Hd|].
    apply strictEqStr_true in Hty. rewrite lookup_tagged_type in Hty.
    destruct (e !! "type") as [v|]; [left; exact Hty|right].
    split; [reflexivity|congruence].
  - intros (e & He & Hd & Hty). exists (tagged tag0 e).
    split; [apply list_elem_of_In, elem_of_matching; eauto|].
    apply strictEqStr_true. rewrite lookup_tagged_type.
    destruct Hty as [-> |[-> ->]]; reflexivity.
Qed.

Lemma someOfType_app (tag : string) (l1 l2 : list doc) :
  someOfType tag (l1 ++ l2) = someOfType tag l1 || someOfType tag l2.
Proof. unfold someOfType. apply existsb_app. Qed.

(** X12. The two indicators of a day cell follow the [type] field of
    what is listed, not the collection it came from: an entity without a
    [type] counts for its own collection, an entity with a [type] counts
    as that type.  So a task whose [type] holds a category lights no
    task indicator. *)
Theorem indicators_follow_type_field :
  forall (t : Z) (today : option Z) (evs tks : list doc) (cells : list cell)
         (d : Z) (ds : string) (isToday hasEvents hasTasks : bool),
    renderCalendarView (Some t) today evs tks = Ok cells ->
    DayCell d ds isToday hasEvents hasTasks ∈ cells ->
    (hasEvents = true <->
       (exists e, e ∈ evs /\ e !! "date" = Some (JStr ds)
                  /\ (e !! "type" = Some (JStr "event") \/ e !! "type" = None))
       \/ (exists e, e ∈ tks /\ e !! "dueDate" = Some (JStr ds)
                     /\ e !! "type" = Some (JStr "event")))
    /\ (hasTasks = true <->
       (exists e, e ∈ evs /\ e !! "date" = Some (JStr ds)
                  /\ e !! "type" = Some (JStr "task"))
       \/ (exists e, e ∈ tks /\ e !! "dueDate" = Some (JStr ds)
                     /\ (e !! "type" = Some (JStr "task")
                         \/ e !! "type" = None))).
Proof.
  intros t today evs tks cells d ds isToday hasEvents hasTasks Hr Hin.
  apply renderCalendarView_cells in Hr as (o & E & ->).
  destruct (generate_lookup (YearFromTime t) (MonthFromTime t) evs tks)
    as (o' & E' & L).
  rewrite E in E'. apply Ok_inj in E'. subst o'.
  apply elem_of_app in Hin as [Hin|Hin].
  { apply elem_of_replicate in Hin as [[=] _]. }
  apply list_elem_of_fmap in Hin as (day & Hc & Hday).
  apply dayCell_inv in Hc as (Hds & -> & ->).
  assert (Hl : o !! ds = Some (dayEntries evs tks ds)).
  { rewrite L. apply decide_True. subst ds.
    unfold monthDateStrings. apply list_elem_of_fmap. eauto. }
  rewrite Hl. change (default [] (Some (dayEntries evs tks ds)))
    with (dayEntries evs tks ds). unfold dayEntries.
  rewrite !someOfType_app, !orb_true_iff, !someOfType_matching.
  split; split.
  - intros [(e & ? & ? & [?|[? _]])|(e & ? & ? & [?|[_ [=]]])]; eauto 10.
  - intros [(e & ? & ? & [?|?])|(e & ? & ? & ?)]; [left|left|right];
      exists e; auto.
  - intros [(e & ? & ? & [?|[_ [=]]])|(e & ? & ? & [?|[? _]])]; eauto 10.
  - intros [(e & ? & ? & ?)|(e & ? & ? & [?|?])]; [left|right|right];
      exists e; auto.
Qed.

Lemma grid_cells_jan2025 :
  exists cells,
    renderCalendarView jan1_2025 (Some jan15_2025_noon) [] [categorisedTask]
    = Ok cells
    /\ DayCell 15 "2025-01-15" true false false ∈ cells.
Proof.
  eexists. split; [vm_compute; reflexivity|].
  do 17 apply list_elem_of_further. apply list_elem_of_here.
Qed.

(** The categorised task on the grid of January 2025: its day cell has
    no task indicator. *)
Lemma indicators_follow_type_field_witness :
  exists cells,
    renderCalendarView jan1_2025 (Some jan15_2025_noon) [] [categorisedTask]
    = Ok cells
    /\ DayCell 15 "2025-01-15" true false false ∈ cells
    /\ (false = true <->
         (exists e : doc, e ∈ [] /\ e !! "date" = Some (JStr "2025-01-15")
                    /\ e !! "type" = Some (JStr "task"))
         \/ (exists e, e ∈ [categorisedTask]
                       /\ e !! "dueDate" = Some (JStr "2025-01-15")
                       /\ (e !! "type" = Some (JStr "task")
                           \/ e !! "type" = None))).
Proof.
  destruct (grid_cells_jan2025) as (cells & Hr & Hin).
  exists cells. split; [exact Hr|]. split; [exact Hin|].
  exact (proj2 (indicators_follow_type_field 1735689600000
                  (Some jan15_2025_noon) [] [categorisedTask] cells
                  15 "2025-01-15" true false false Hr Hin)).
Defined.

(** ** Saving, deleting and fetching entities *)

Lemma collectionOf_setCollection (k : kind) (c : gmap string doc) (s : db) :
  collectionOf k (setCollection k c s) = c.
Proof. destruct k; reflexivity. Qed.

Lemma collectionOf_setCollection_other (k : kind) (c : gmap string doc)
    (s : db) :
  collectionOf (otherKind k) (setCollection k c s)
  = collectionOf (otherKind k) s.
Proof. destruct k; reflexivity. Qed.

Lemma collectionOf_updateDoc_other (k : kind) (id : string) (fields : doc)
    (s : db) :
  collectionOf (otherKind k) (updateDoc k id fields s)
  = collectionOf (otherKind k) s.
Proof. destruct k; reflexivity. Qed.

Lemma setCollection_same (k : kind) (s : db) :
  setCollection k (collectionOf k s) s = s.
Proof. destruct k, s; reflexivity. Qed.

Lemma signed_in (userId : string) :
  userId <> "" -> negb (truthy (JStr <$> Some userId)) = false.
Proof.
  intros H. cbn. destruct (String.eqb_spec userId ""); [contradiction|].
  reflexivity.
Qed.

Lemma elem_of_snapshotEntities (coll : gmap string doc) (id : string)
    (data : doc) :
  coll !! id = Some data -> entityOf id data ∈ snapshotEntities coll.
Proof.
  intros H. unfold snapshotEntities. apply list_elem_of_fmap.
  exists (id, data). split; [reflexivity|].
  apply elem_of_map_to_list, H.
Qed.

Lemma lookup_entityOf_id (docId : string) (data : doc) :
  entityOf docId data !! "id"
  = match data !! "id" with Some v => Some v | None => Some (JStr docId) end.
Proof.
  unfold entityOf. destruct (data !! "id") as [v|] eqn:E.
  - apply lookup_union_Some_l, E.
  - rewrite lookup_union_r by exact E. apply lookup_singleton_eq.
Qed.

Lemma lookup_entityOf_other (docId : string) (data : doc) (f : string) :
  f <> "id" -> entityOf docId data !! f = data !! f.
Proof.
  intros Hne. unfold entityOf. destruct (data !! f) as [v|] eqn:E.
  - apply lookup_union_Some_l, E.
  - rewrite lookup_union_r by exact E. apply lookup_singleton_ne. congruence.
Qed.

Lemma saveEntity_new (k : kind) (userId autoId : string) (now : jsval)
    (data : doc) (s : db) :
  userId <> "" -> truthy (data !! "id") = false ->
  saveEntity k (Some userId) autoId now data s
  = (addDoc k autoId (<[ "createdAt" := now ]> data) s,
     [(kind_cap k +:+ " added successfully!", success)]).
Proof.
  intros Hu Hid. unfold saveEntity. rewrite (signed_in _ Hu), Hid.
  reflexivity.
Qed.

(** X13. A new entity is fetched under the [id] it was saved with, not
    under its document id: [saveEvent] / [saveTask] store the data with
    its own [id] field, and the snapshot listener lets that field win.
    The data of the event form, whose [id] is [null], therefore comes
    back with [id] null. *)
Theorem new_entity_keeps_its_own_id :
  forall (k : kind) (userId autoId : string) (now : jsval) (data : doc)
         (s : db),
    userId <> "" -> storable data = true -> truthy (data !! "id") = false ->
    let r := saveEntity k (Some userId) autoId now data s in
    let stored := <[ "createdAt" := now ]> data in
    r.2 = [(kind_cap k +:+ " added successfully!", success)]
    /\ collectionOf k r.1 !! autoId = Some stored
    /\ entityOf autoId stored ∈ fetchEntities k (Some userId) r.1
    /\ entityOf autoId stored !! "id"
       = match data !! "id" with
         | Some v => Some v
         | None => Some (JStr autoId)
         end.
Proof.
  intros k userId autoId now data s Hu _ Hid r stored. subst r.
  rewrite (saveEntity_new _ _ _ _ _ _ Hu Hid). cbn [fst snd].
  assert (Hl : collectionOf k (addDoc k autoId stored s) !! autoId
               = Some stored).
  { unfold addDoc. rewrite collectionOf_setCollection. apply lookup_insert_eq. }
  split; [reflexivity|]. split; [exact Hl|]. split.
  - unfold fetchEntities. rewrite (signed_in _ Hu).
    apply elem_of_snapshotEntities, Hl.
  - rewrite lookup_entityOf_id. unfold stored.
    rewrite lookup_insert_ne by discriminate. reflexivity.
Qed.

(** The event form's data for a new event, saved into the sample
    store. *)
Lemma new_entity_keeps_its_own_id_witness :
  "user-1" <> "" /\ storable newFormEvent = true /\
  truthy (newFormEvent !! "id") = false /\
  entityOf "doc-9" (<[ "createdAt" := JNum 0 ]> newFormEvent) !! "id"
  = match newFormEvent !! "id" with
    | Some v => Some v
    | None => Some (JStr "doc-9")
    end.
Proof.
  assert (Hu : "user-1" <> "") by discriminate.
  assert (Hst : storable newFormEvent = true) by (vm_compute; reflexivity).
  assert (Hid : truthy (newFormEvent !! "id") = false) by reflexivity.
  split; [exact Hu|]. split; [exact Hst|]. split; [exact Hid|].
  exact (proj2 (proj2 (proj2
    (new_entity_keeps_its_own_id KEvent "user-1" "doc-9" (JNum 0)
       newFormEvent sampleDb Hu Hst Hid)))).
Defined.

(** X14. Saving a new entity adds exactly one document: with an id the
    collection does not use yet, the collection grows by one, every
    document it held is still there unchanged, and the other collection
    is untouched. *)
Theorem save_new_adds_one_document :
  forall (k : kind) (userId autoId : string) (now : jsval) (data : doc)
         (s : db),
    userId <> "" -> storable data = true -> truthy (data !! "id") = false ->
    collectionOf k s !! autoId = None ->
    let s' := (saveEntity k (Some userId) autoId now data s).1 in
    size (collectionOf k s') = S (size (collectionOf k s))
    /\ (forall id, id <> autoId ->
          collectionOf k s' !! id = collectionOf k s !! id)
    /\ collectionOf (otherKind k) s' = collectionOf (otherKind k) s.
Proof.
  intros k userId autoId now data s Hu _ Hid Hfresh s'. subst s'.
  rewrite (saveEntity_new _ _ _ _ _ _ Hu Hid). cbn [fst].
  unfold addDoc. rewrite collectionOf_setCollection.
  split; [apply map_size_insert_None, Hfresh|].
  split; [|apply collectionOf_setCollection_other].
  intros id Hne. apply lookup_insert_ne. congruence.
Qed.

Lemma save_new_adds_one_document_witness :
  "user-1" <> "" /\ storable newFormEvent = true /\
  truthy (newFormEvent !! "id") = false /\
  collectionOf KEvent sampleDb !! "doc-9" = None /\
  size (collectionOf KEvent
          (saveEntity KEvent (Some "user-1") "doc-9" (JNum 0) newFormEvent
             sampleDb).1)
  = S (size (collectionOf KEvent sampleDb)).
Proof.
  assert (Hu : "user-1" <> "") by discriminate.
  assert (Hst : storable newFormEvent = true) by (vm_compute; reflexivity).
  assert (Hid : truthy (newFormEvent !! "id") = false) by reflexivity.
  assert (Hf : collectionOf KEvent sampleDb !! "doc-9" = None)
    by (vm_compute; reflexivity).
  split; [exact Hu|]. split; [exact Hst|]. split; [exact Hid|].
  split; [exact Hf|].
  exact (proj1 (save_new_adds_one_document KEvent "user-1" "doc-9" (JNum 0)
                  newFormEvent sampleDb Hu Hst Hid Hf)).
Defined.

Lemma docName_nonempty (id : string) : docName id = true -> id <> "".
Proof. intros H ->. discriminate H. Qed.

Lemma saveEntity_update (k : kind) (userId autoId id : string) (now : jsval)
    (data : doc) (s : db) :
  userId <> "" -> id <> "" -> data !! "id" = Some (JStr id) ->
  saveEntity k (Some userId) autoId now data s
  = match updateDocStrict k id (delete "id" data) s with
    | Some s' => (s', [(kind_cap k +:+ " updated successfully!", success)])
    | None => (s, [("Error saving " +:+ kind_str k +:+ "!", error)])
    end.
Proof.
  intros Hu Hi Hid. unfold saveEntity. rewrite (signed_in _ Hu), Hid.
  cbn [truthy]. destruct (String.eqb_spec id ""); [contradiction|].
  reflexivity.
Qed.

(** X15. Saving under the id of a stored document merges: every field of
    the data except [id] overwrites the stored one, every field the data
    does not mention keeps its stored value (so a field can never be
    removed by an edit), the stored [id] field is not touched, and no
    other document or collection changes. *)
Theorem save_existing_merges_fields :
  forall (k : kind) (userId autoId id : string) (now : jsval)
         (data old : doc) (s : db),
    userId <> "" -> storable data = true -> data !! "id" = Some (JStr id) ->
    docName id = true -> collectionOf k s !! id = Some old ->
    let r := saveEntity k (Some userId) autoId now data s in
    r.2 = [(kind_cap k +:+ " updated successfully!", success)]
    /\ (exists new,
          collectionOf k r.1 !! id = Some new
          /\ new !! "id" = old !! "id"
          /\ forall f, f <> "id" ->
               new !! f = match data !! f with
                          | Some v => Some v
                          | None => old !! f
                          end)
    /\ (forall id', id' <> id ->
          collectionOf k r.1 !! id' = collectionOf k s !! id')
    /\ collectionOf (otherKind k) r.1 = collectionOf (otherKind k) s.
Proof.
  intros k userId autoId id now data old s Hu _ Hid Hi Hold r. subst r.
  rewrite (saveEntity_update _ _ _ _ _ _ _ Hu (docName_nonempty _ Hi) Hid).
  unfold updateDocStrict. rewrite Hold. cbn [fst snd].
  split; [reflexivity|]. split; [|split].
  - exists (delete "id" data ∪ old). split; [|split].
    + apply lookup_updateDoc, Hold.
    + rewrite lookup_union_r by apply lookup_delete_eq. reflexivity.
    + intros f Hf. rewrite lookup_union, lookup_delete_ne by congruence.
      destruct (data !! f), (old !! f); reflexivity.
  - intros id' Hne. rewrite collectionOf_updateDoc.
    apply lookup_alter_ne. congruence.
  - apply collectionOf_updateDoc_other.
Qed.

Lemma save_existing_merges_fields_witness :
  "user-1" <> "" /\ storable (<[ "id" := JStr "e3" ]> importedEvent) = true /\
  (<[ "id" := JStr "e3" ]> importedEvent) !! "id" = Some (JStr "e3") /\
  docName "e3" = true /\
  collectionOf KEvent sampleDb !! "e3" = Some launchEvent /\
  (saveEntity KEvent (Some "user-1") "doc-9" (JNum 0)
     (<[ "id" := JStr "e3" ]> importedEvent) sampleDb).2
  = [(kind_cap KEvent +:+ " updated successfully!", success)].
Proof.
  assert (Hu : "user-1" <> "") by discriminate.
  assert (Hst : storable (<[ "id" := JStr "e3" ]> importedEvent) = true)
    by (vm_compute; reflexivity).
  assert (Hi : docName "e3" = true) by reflexivity.
  assert (Hid : (<[ "id" := JStr "e3" ]> importedEvent) !! "id"
                = Some (JStr "e3")) by reflexivity.
  assert (Hold : collectionOf KEvent sampleDb !! "e3" = Some launchEvent)
    by (vm_compute; reflexivity).
  split; [exact Hu|]. split; [exact Hst|]. split; [exact Hid|].
  split; [exact Hi|]. split; [exact Hold|].
  exact (proj1 (save_existing_merges_fields KEvent "user-1" "doc-9" "e3"
                  (JNum 0) _ launchEvent sampleDb Hu Hst Hid Hi Hold)).
Defined.

(** X16. Saving under an id that names no stored document creates
    nothing: the store is unchanged and the only message is the error
    toast. *)
Theorem save_unknown_id_changes_nothing :
  forall (k : kind) (userId autoId id : string) (now : jsval) (data : doc)
         (s : db),
    userId <> "" -> storable data = true -> data !! "id" = Some (JStr id) ->
    docName id = true -> collectionOf k s !! id = None ->
    saveEntity k (Some userId) autoId now data s
    = (s, [("Error saving " +:+ kind_str k +:+ "!", error)]).
Proof.
  intros k userId autoId id now data s Hu _ Hid Hi Hnone.
  rewrite (saveEntity_update _ _ _ _ _ _ _ Hu (docName_nonempty _ Hi) Hid).
  unfold updateDocStrict. rewrite Hnone. reflexivity.
Qed.

Lemma save_unknown_id_changes_nothing_witness :
  "user-1" <> "" /\
  storable (<[ "id" := JStr "gone" ]> importedEvent) = true /\
  (<[ "id" := JStr "gone" ]> importedEvent) !! "id" = Some (JStr "gone") /\
  docName "gone" = true /\
  collectionOf KEvent sampleDb !! "gone" = None /\
  saveEntity KEvent (Some "user-1") "doc-9" (JNum 0)
    (<[ "id" := JStr "gone" ]> importedEvent) sampleDb
  = (sampleDb, [("Error saving " +:+ kind_str KEvent +:+ "!", error)]).
Proof.
  assert (Hu : "user-1" <> "") by discriminate.
  assert (Hst : storable (<[ "id" := JStr "gone" ]> importedEvent) = true)
    by (vm_compute; reflexivity).
  assert (Hi : docName "gone" = true) by reflexivity.
  assert (Hid : (<[ "id" := JStr "gone" ]> importedEvent) !! "id"
                = Some (JStr "gone")) by reflexivity.
  assert (Hn : collectionOf KEvent sampleDb !! "gone" = None)
    by (vm_compute; reflexivity).
  split; [exact Hu|]. split; [exact Hst|]. split; [exact Hid|].
  split; [exact Hi|]. split; [exact Hn|].
  exact (save_unknown_id_changes_nothing KEvent "user-1" "doc-9" "gone"
           (JNum 0) _ sampleDb Hu Hst Hid Hi Hn).
Defined.

Lemma deleteEntity_signed_in (k : kind) (userId id : string) (s : db) :
  userId <> "" ->
  deleteEntity k (Some userId) id s
  = (deleteDoc k id s, [(kind_cap k +:+ " deleted successfully!", success)]).
Proof.
  intros Hu. unfold deleteEntity. rewrite (signed_in _ Hu). reflexivity.
Qed.

Lemma deleteDoc_missing (k : kind) (id : string) (s : db) :
  collectionOf k s !! id = None -> deleteDoc k id s = s.
Proof.
  intros H. unfold deleteDoc. rewrite delete_id by exact H.
  apply setCollection_same.
Qed.

(** X17. Deleting removes the document stored under the id and nothing
    else, and reports success whether or not there was one: for an id
    that names no document the store is unchanged, so deleting twice is
    the same as deleting once. *)
Theorem delete_removes_only_that_document :
  forall (k : kind) (userId id : string) (s : db),
    userId <> "" -> docName id = true ->
    let r := deleteEntity k (Some userId) id s in
    r.2 = [(kind_cap k +:+ " deleted successfully!", success)]
    /\ collectionOf k r.1 !! id = None
    /\ (forall id', id' <> id ->
          collectionOf k r.1 !! id' = collectionOf k s !! id')
    /\ collectionOf (otherKind k) r.1 = collectionOf (otherKind k) s
    /\ (collectionOf k s !! id = None -> r.1 = s)
    /\ deleteEntity k (Some userId) id r.1 = (r.1, r.2).
Proof.
  intros k userId id s Hu _ r. subst r.
  rewrite (deleteEntity_signed_in _ _ _ _ Hu). cbn [fst snd].
  assert (Hgone : collectionOf k (deleteDoc k id s) !! id = None).
  { unfold deleteDoc. rewrite collectionOf_setCollection.
    apply lookup_delete_eq. }
  split; [reflexivity|]. split; [exact Hgone|]. split; [|split; [|split]].
  - intros id' Hne. unfold deleteDoc. rewrite collectionOf_setCollection.
    apply lookup_delete_ne. congruence.
  - apply collectionOf_setCollection_other.
  - apply deleteDoc_missing.
  - rewrite (deleteEntity_signed_in _ _ _ _ Hu).
    rewrite (deleteDoc_missing _ _ _ Hgone). reflexivity.
Qed.

Lemma delete_removes_only_that_document_witness :
  "user-1" <> "" /\ docName "e3" = true /\
  collectionOf KEvent (deleteEntity KEvent (Some "user-1") "e3" sampleDb).1
    !! "e3" = None.
Proof.
  assert (Hu : "user-1" <> "") by discriminate.
  assert (Hi : docName "e3" = true) by reflexivity.
  split; [exact Hu|]. split; [exact Hi|].
  exact (proj1 (proj2
    (delete_removes_only_that_document KEvent "user-1" "e3" sampleDb Hu
       Hi))).
Defined.

(** X18. An event added by the event form cannot be deleted from its
    list item: the form stores [id: null], the fetched entity therefore
    has [id] null, the item's delete button passes the text "null", and
    [deleteEvent] reports success while the document stays stored.  The
    same holds for tasks. *)
Theorem form_entity_survives_its_delete_button :
  forall (k : kind) (userId autoId : string) (now : jsval) (data : doc)
         (s : db),
    userId <> "" -> storable data = true -> data !! "id" = Some JNull ->
    autoId <> "null" ->
    let stored := <[ "createdAt" := now ]> data in
    let s1 := (saveEntity k (Some userId) autoId now data s).1 in
    let r := deleteEntity k (Some userId)
               (buttonId (entityOf autoId stored)) s1 in
    entityOf autoId stored ∈ fetchEntities k (Some userId) s1
    /\ r.2 = [(kind_cap k +:+ " deleted successfully!", success)]
    /\ collectionOf k r.1 !! autoId = Some stored
    /\ entityOf autoId stored ∈ fetchEntities k (Some userId) r.1.
Proof.
  intros k userId autoId now data s Hu _ Hid Hne stored s1 r.
  assert (Hf : truthy (data !! "id") = false) by (rewrite Hid; reflexivity).
  assert (Hb : buttonId (entityOf autoId stored) = "null").
  { unfold buttonId. rewrite lookup_entityOf_id. unfold stored.
    rewrite lookup_insert_ne by discriminate. rewrite Hid. reflexivity. }
  assert (Hs1 : collectionOf k s1 !! autoId = Some stored).
  { subst s1. rewrite (saveEntity_new _ _ _ _ _ _ Hu Hf). cbn [fst].
    unfold addDoc. rewrite collectionOf_setCollection.
    apply lookup_insert_eq. }
  assert (Hr : collectionOf k r.1 !! autoId = Some stored).
  { subst r. rewrite Hb, (deleteEntity_signed_in _ _ _ _ Hu). cbn [fst].
    unfold deleteDoc. rewrite collectionOf_setCollection.
    rewrite lookup_delete_ne by congruence. exact Hs1. }
  split; [|split; [|split]].
  - unfold fetchEntities. rewrite (signed_in _ Hu).
    apply elem_of_snapshotEntities, Hs1.
  - subst r. rewrite (deleteEntity_signed_in _ _ _ _ Hu). reflexivity.
  - exact Hr.
  - unfold fetchEntities. rewrite (signed_in _ Hu).
    apply elem_of_snapshotEntities, Hr.
Qed.

Lemma form_entity_survives_its_delete_button_witness :
  "user-1" <> "" /\ storable newFormEvent = true /\
  newFormEvent !! "id" = Some JNull /\ "doc-9" <> "null" /\
  collectionOf KEvent
    (deleteEntity KEvent (Some "user-1")
       (buttonId (entityOf "doc-9" (<[ "createdAt" := JNum 0 ]> newFormEvent)))
       (saveEntity KEvent (Some "user-1") "doc-9" (JNum 0) newFormEvent
          sampleDb).1).1 !! "doc-9"
  = Some (<[ "createdAt" := JNum 0 ]> newFormEvent).
Proof.
  assert (Hu : "user-1" <> "") by discriminate.
  assert (Hst : storable newFormEvent = true) by (vm_compute; reflexivity).
  assert (Hid : newFormEvent !! "id" = Some JNull) by reflexivity.
  assert (Hne : "doc-9" <> "null") by discriminate.
  split; [exact Hu|]. split; [exact Hst|]. split; [exact Hid|].
  split; [exact Hne|].
  exact (proj1 (proj2 (proj2
    (form_entity_survives_its_delete_button KEvent "user-1" "doc-9" (JNum 0)
       newFormEvent sampleDb Hu Hst Hid Hne)))).
Defined.

(** ** Marking occurrences done *)

Lemma markOccurrenceDone_array (k : kind) (userId today id : string) (s : db)
    (e : doc) (l : list jsval) :
  userId <> "" -> collectionOf k s !! id = Some e ->
  orElse (e !! "completedOccurrences") (JArr []) = JArr l ->
  markOccurrenceDone k (Some userId) today id s
  = if includes l today then
      (s, [(kind_cap k +:+ " occurrence already marked as done for today.",
            info)])
    else
      (updateDoc k id {[ "completedOccurrences" := JArr (l ++ [JStr today]) ]}
         s,
       [(kind_cap k +:+ " occurrence marked as done!", success)]).
Proof.
  intros Hu He Hl. unfold markOccurrenceDone.
  rewrite (signed_in _ Hu), He, Hl.
  destruct (includes l today); reflexivity.
Qed.

Lemma orElse_array_listed (e : doc) (l : list jsval) (today : string) :
  orElse (e !! "completedOccurrences") (JArr []) = JArr l ->
  includes l today = true ->
  e !! "completedOccurrences" = Some (JArr l).
Proof.
  intros Hl Hi. unfold orElse in Hl.
  destruct (e !! "completedOccurrences") as [v|] eqn:E.
  - destruct (truthy (Some v)); [congruence|].
    injection Hl as <-. discriminate Hi.
  - injection Hl as <-. discriminate Hi.
Qed.

Lemma single_update_other (f : string) (v : jsval) (e : doc) (g : string) :
  g <> f -> (({[ f := v ]} : doc) ∪ e) !! g = e !! g.
Proof.
  intros Hne. rewrite lookup_union_r; [reflexivity|].
  apply lookup_singleton_ne. congruence.
Qed.

Lemma single_update_field (f : string) (v : jsval) (e : doc) :
  (({[ f := v ]} : doc) ∪ e) !! f = Some v.
Proof. apply lookup_union_Some_l, lookup_singleton_eq. Qed.

(** X19. Marking today's occurrence done always ends with the item's
    button disabled: for a stored entity whose [completedOccurrences] is
    an array or falsy, the entity fetched afterwards has today's date in
    that array, so [renderEventItem] / [renderTaskItem] compute
    "completed today"; the toast is the success one when the date was
    added and the info one when it was there already. *)
Theorem marking_today_disables_the_button :
  forall (k : kind) (userId today id : string) (s : db) (e : doc)
         (l : list jsval),
    userId <> "" -> collectionOf k s !! id = Some e ->
    orElse (e !! "completedOccurrences") (JArr []) = JArr l ->
    let r := markOccurrenceDone k (Some userId) today id s in
    exists e1,
      collectionOf k r.1 !! id = Some e1
      /\ entityOf id e1 ∈ fetchEntities k (Some userId) r.1
      /\ completedToday (entityOf id e1) today = Ok true
      /\ e1 !! "completedOccurrences"
         = Some (JArr (if includes l today then l else l ++ [JStr today]))
      /\ r.2 = if includes l today then
                 [(kind_cap k +:+
                     " occurrence already marked as done for today.", info)]
               else [(kind_cap k +:+ " occurrence marked as done!", success)].
Proof.
  intros k userId today id s e l Hu He Hl r. subst r.
  rewrite (markOccurrenceDone_array _ _ _ _ _ _ _ Hu He Hl).
  assert (Hdone : forall e1 l1,
            e1 !! "completedOccurrences" = Some (JArr l1) ->
            includes l1 today = true ->
            completedToday (entityOf id e1) today = Ok true).
  { intros e1 l1 H1 Hi. unfold completedToday.
    rewrite lookup_entityOf_other by discriminate. rewrite H1.
    cbn [orElse truthy]. rewrite Hi. reflexivity. }
  destruct (includes l today) eqn:Hi; cbn [fst snd].
  - pose proof (orElse_array_listed _ _ _ Hl Hi) as Hf.
    exists e. split; [exact He|]. split.
    { unfold fetchEntities. rewrite (signed_in _ Hu).
      apply elem_of_snapshotEntities, He. }
    split; [exact (Hdone _ _ Hf Hi)|]. split; [exact Hf|reflexivity].
  - eexists. split; [apply lookup_updateDoc, He|]. split.
    { unfold fetchEntities. rewrite (signed_in _ Hu).
      apply elem_of_snapshotEntities, lookup_updateDoc, He. }
    split; [|split; [apply single_update_field|reflexivity]].
    apply (Hdone _ (l ++ [JStr today]));
      [apply single_update_field|apply includes_snoc].
Qed.

Lemma marking_today_disables_the_button_witness :
  "user-1" <> "" /\
  collectionOf KEvent sampleDb !! "e4" = Some importedEvent /\
  orElse (importedEvent !! "completedOccurrences") (JArr []) = JArr [] /\
  exists e1,
    collectionOf KEvent
      (markOccurrenceDone KEvent (Some "user-1") "2025-03-02" "e4"
         sampleDb).1 !! "e4" = Some e1
    /\ completedToday (entityOf "e4" e1) "2025-03-02" = Ok true.
Proof.
  assert (Hu : "user-1" <> "") by discriminate.
  assert (He : collectionOf KEvent sampleDb !! "e4" = Some importedEvent)
    by (vm_compute; reflexivity).
  assert (Hl : orElse (importedEvent !! "completedOccurrences") (JArr [])
               = JArr []) by reflexivity.
  split; [exact Hu|]. split; [exact He|]. split; [exact Hl|].
  destruct (marking_today_disables_the_button KEvent "user-1" "2025-03-02"
              "e4" sampleDb importedEvent [] Hu He Hl)
    as (e1 & H1 & _ & H2 & _).
  exists e1. split; [exact H1|exact H2].
Defined.

(** X20. [markEventOccurrenceDone] / [markTaskOccurrenceDone] change
    nothing but the [completedOccurrences] field of the one document:
    whatever the stored field holds, every other field of that document,
    every other document and the other collection are as before, and no
    document is created or removed. *)
Theorem marking_today_touches_one_field :
  forall (k : kind) (userId : option string) (today id : string) (s : db),
    let s1 := (markOccurrenceDone k userId today id s).1 in
    collectionOf (otherKind k) s1 = collectionOf (otherKind k) s
    /\ (forall id', id' <> id ->
          collectionOf k s1 !! id' = collectionOf k s !! id')
    /\ (collectionOf k s1 !! id = None <-> collectionOf k s !! id = None)
    /\ (forall e e1 f,
          collectionOf k s !! id = Some e ->
          collectionOf k s1 !! id = Some e1 ->
          f <> "completedOccurrences" -> e1 !! f = e !! f).
Proof.
  intros k userId today id s s1.
  assert (Hcases : s1 = s \/
            exists e l, collectionOf k s !! id = Some e /\
              s1 = updateDoc k id
                     {[ "completedOccurrences" := JArr (l ++ [JStr today]) ]}
                     s).
  { subst s1. unfold markOccurrenceDone.
    destruct (negb (truthy (JStr <$> userId))); [left; reflexivity|].
    destruct (collectionOf k s !! id) as [e|] eqn:He; [|left; reflexivity].
    destruct (orElse (e !! "completedOccurrences") (JArr []))
      as [| | |str|l|]; try (left; reflexivity).
    - destruct (negb (stringIncludes str today)); left; reflexivity.
    - destruct (negb (includes l today)); [|left; reflexivity].
      right. exists e, l. split; reflexivity. }
  destruct Hcases as [-> | (e & l & He & ->)].
  - split; [reflexivity|]. split; [reflexivity|]. split; [reflexivity|].
    intros e0 e1 f H0 H1 _. congruence.
  - split; [apply collectionOf_updateDoc_other|]. split; [|split].
    + intros id' Hne. rewrite collectionOf_updateDoc.
      apply lookup_alter_ne. congruence.
    + rewrite (lookup_updateDoc _ _ _ _ _ He), He. split; discriminate.
    + intros e0 e1 f H0 H1 Hf.
      rewrite (lookup_updateDoc _ _ _ _ _ He) in H1.
      assert (e0 = e) as -> by congruence.
      injection H1 as <-. apply single_update_other, Hf.
Qed.

(** ** The confirmed mark-done click of app.js *)

Lemma handleMarkDoneClick_cases (id : string) (type : kind) (d : string)
    (confirmed : bool) (now : string) (s : db) :
  let s1 := (handleMarkDoneClick id type d confirmed now s).1 in
  s1 = s \/
  exists e fields,
    collectionOf type s !! id = Some e /\ s1 = updateDoc type id fields s /\
    forall f, f <> "isCompleted" -> f <> "completedOccurrencesDates" ->
              f <> "updatedAt" -> fields !! f = None.
Proof.
  intros s1. subst s1. unfold handleMarkDoneClick.
  destruct (negb confirmed); [left; reflexivity|].
  destruct (collectionOf type s !! id) as [e|] eqn:He; [|left; reflexivity].
  cbn [fst].
  destruct (truthy (e !! "recurrence")
            && negb (strictEqStr (e !! "recurrence") "none")).
  - destruct (negb (includes _ d)); [|left; reflexivity].
    right. eexists _, _. split; [reflexivity|]. split; [reflexivity|].
    intros f H1 H2 H3. rewrite lookup_insert_ne by congruence.
    apply lookup_singleton_ne. congruence.
  - right. eexists _, _. split; [reflexivity|]. split; [reflexivity|].
    intros f H1 H2 H3. rewrite lookup_insert_ne by congruence.
    apply lookup_singleton_ne. congruence.
Qed.

(** X21. A mark-done click changes at most three fields of one
    document: whatever the dialog's answer and the stored data, the
    other collection and every other document are untouched, no document
    is created or removed, and every field of the clicked document other
    than [isCompleted], [completedOccurrencesDates] and [updatedAt] keeps
    its value; a cancelled dialog changes nothing and shows no toast. *)
Theorem mark_done_click_touches_three_fields :
  forall (id : string) (type : kind) (d : string) (confirmed : bool)
         (now : string) (s : db),
    let r := handleMarkDoneClick id type d confirmed now s in
    collectionOf (otherKind type) r.1 = collectionOf (otherKind type) s
    /\ (forall id', id' <> id ->
          collectionOf type r.1 !! id' = collectionOf type s !! id')
    /\ (collectionOf type r.1 !! id = None
        <-> collectionOf type s !! id = None)
    /\ (forall e e1 f,
          collectionOf type s !! id = Some e ->
          collectionOf type r.1 !! id = Some e1 ->
          f <> "isCompleted" -> f <> "completedOccurrencesDates" ->
          f <> "updatedAt" -> e1 !! f = e !! f)
    /\ (confirmed = false -> r = (s, [])).
Proof.
  intros id type d confirmed now s r.
  assert (Hcancel : confirmed = false -> r = (s, [])).
  { intros ->. reflexivity. }
  destruct (handleMarkDoneClick_cases id type d confirmed now s)
    as [Hs | (e & fields & He & Hs & Hfields)];
    fold r in Hs; rewrite Hs.
  - split; [reflexivity|]. split; [reflexivity|]. split; [reflexivity|].
    split; [|exact Hcancel]. intros e0 e1 f H0 H1 _ _ _. congruence.
  - split; [apply collectionOf_updateDoc_other|]. split; [|split; [|split]].
    + intros id' Hne. rewrite collectionOf_updateDoc.
      apply lookup_alter_ne. congruence.
    + rewrite (lookup_updateDoc _ _ _ _ _ He), He. split; discriminate.
    + intros e0 e1 f H0 H1 Hf1 Hf2 Hf3.
      rewrite (lookup_updateDoc _ _ _ _ _ He) in H1.
      assert (e0 = e) as -> by congruence.
      injection H1 as <-. rewrite lookup_union_r; [reflexivity|].
      apply Hfields; assumption.
    + exact Hcancel.
Qed.

Lemma includes_false (l : list jsval) (d : string) :
  includes l d = false -> JStr d ∉ l.
Proof.
  intros Hf Hin. apply includes_true in Hin. congruence.
Qed.



(** ** The detail view after a mark-done click *)

Lemma detailStatus_entityOf (id : string) (e : doc) (a b : option Z) :
  detailStatus (entityOf id e) a b = detailStatus e a b.
Proof.
  unfold detailStatus.
  rewrite !lookup_entityOf_other by discriminate. reflexivity.
Qed.

Lemma detailStatus_not_none (e : doc) (a b : option Z) :
  strictEqStr (e !! "recurrence") "none" = false ->
  (detailStatus e a b).2 = true /\ (detailStatus e a b).1 <> "Completed".
Proof.
  intros H. unfold detailStatus. rewrite H.
  destruct (e !! "completedOccurrencesDates") as [[| | | |[|x l]|]|];
    destruct (dateBefore a b); split; (reflexivity || discriminate).
Qed.



(** ** Editing through the event form *)

Lemma eventFormData_new_id (title description date time : string) :
  eventFormData None title description date time !! "id" = Some JNull.
Proof. apply lookup_insert_eq. Qed.

Lemma eventFormData_id (e : doc) (v : jsval)
    (title description date time : string) :
  e !! "id" = Some v ->
  eventFormData (Some e) title description date time !! "id" = Some v.
Proof.
  intros H. unfold eventFormData. rewrite H. apply lookup_insert_eq.
Qed.

(** X24. Editing an event that was added through the form adds a second
    event instead of changing the first: the entity fetched after the
    first save has [id] null, the form submits that [id], and
    [saveEvent] takes the add branch again.  The first document stays
    as it was and the edited data is stored under a new id. *)
Theorem editing_form_event_adds_a_copy :
  forall (userId autoId autoId2 : string) (now now2 : jsval) (s : db)
         (title description date time : string)
         (title2 description2 date2 time2 : string),
    userId <> "" -> autoId2 <> autoId ->
    let first := eventFormData None title description date time in
    let s1 := (saveEvent (Some userId) autoId now first s).1 in
    let fetched := entityOf autoId (<[ "createdAt" := now ]> first) in
    let second :=
      eventFormData (Some fetched) title2 description2 date2 time2 in
    let r := saveEvent (Some userId) autoId2 now2 second s1 in
    fetched ∈ fetchEntities KEvent (Some userId) s1
    /\ r.2 = [("Event added successfully!", success)]
    /\ collectionOf KEvent r.1 !! autoId
       = Some (<[ "createdAt" := now ]> first)
    /\ collectionOf KEvent r.1 !! autoId2
       = Some (<[ "createdAt" := now2 ]> second)
    /\ second !! "title" = Some (JStr title2).
Proof.
  intros userId autoId autoId2 now now2 s title description date time
    title2 description2 date2 time2 Hu Hne first s1 fetched second r.
  assert (Hf1 : truthy (first !! "id") = false).
  { unfold first. rewrite eventFormData_new_id. reflexivity. }
  assert (Hfid : fetched !! "id" = Some JNull).
  { unfold fetched. rewrite lookup_entityOf_id.
    rewrite lookup_insert_ne by discriminate.
    unfold first. rewrite eventFormData_new_id. reflexivity. }
  assert (Hf2 : truthy (second !! "id") = false).
  { unfold second. rewrite (eventFormData_id _ _ _ _ _ _ Hfid). reflexivity. }
  assert (Hs1 : collectionOf KEvent s1 !! autoId
                = Some (<[ "createdAt" := now ]> first)).
  { subst s1. unfold saveEvent.
    rewrite (saveEntity_new _ _ _ _ _ _ Hu Hf1). cbn [fst].
    unfold addDoc. rewrite collectionOf_setCollection.
    apply lookup_insert_eq. }
  assert (Hr : r = (addDoc KEvent autoId2 (<[ "createdAt" := now2 ]> second) s1,
                    [("Event added successfully!", success)])).
  { subst r. unfold saveEvent.
    rewrite (saveEntity_new _ _ _ _ _ _ Hu Hf2). reflexivity. }
  rewrite Hr. cbn [fst snd]. unfold addDoc.
  rewrite collectionOf_setCollection.
  split; [|split; [reflexivity|split; [|split]]].
  - unfold fetchEntities. rewrite (signed_in _ Hu).
    apply elem_of_snapshotEntities, Hs1.
  - rewrite lookup_insert_ne by congruence. exact Hs1.
  - apply lookup_insert_eq.
  - unfold second, eventFormData. rewrite Hfid. reflexivity.
Qed.

Lemma editing_form_event_adds_a_copy_witness :
  "user-1" <> "" /\ "doc-10" <> "doc-9" /\
  collectionOf KEvent
    (saveEvent (Some "user-1") "doc-10" (JNum 1)
       (eventFormData
          (Some (entityOf "doc-9"
                   (<[ "createdAt" := JNum 0 ]>
                      (eventFormData None "Dentist" "" "2025-02-05" ""))))
          "Dentist" "moved" "2025-02-06" "")
       (saveEvent (Some "user-1") "doc-9" (JNum 0)
          (eventFormData None "Dentist" "" "2025-02-05" "") sampleDb).1).1
    !! "doc-9"
  = Some (<[ "createdAt" := JNum 0 ]>
            (eventFormData None "Dentist" "" "2025-02-05" "")).
Proof.
  assert (Hu : "user-1" <> "") by discriminate.
  assert (Hne : "doc-10" <> "doc-9") by discriminate.
  split; [exact Hu|]. split; [exact Hne|].
  exact (proj1 (proj2 (proj2
    (editing_form_event_adds_a_copy "user-1" "doc-9" "doc-10" (JNum 0)
       (JNum 1) sampleDb "Dentist" "" "2025-02-05" "" "Dentist" "moved"
       "2025-02-06" "" Hu Hne)))).
Defined.

(** X25. Editing an event that is stored without an [id] field of its
    own changes it in place: the fetched entity carries the document
    id, the form submits it, and afterwards the document has the four
    values of the form, the completed occurrences it had (an empty array
    when it had none), and every other field unchanged; no document is
    added. *)
Theorem editing_stored_event_updates_it :
  forall (userId autoId id : string) (now : jsval) (s : db) (old : doc)
         (title description date time : string),
    userId <> "" -> docName id = true -> storable old = true ->
    collectionOf KEvent s !! id = Some old -> old !! "id" = None ->
    let data :=
      eventFormData (Some (entityOf id old)) title description date time in
    let r := saveEvent (Some userId) autoId now data s in
    r.2 = [("Event updated successfully!", success)]
    /\ (exists new,
          collectionOf KEvent r.1 !! id = Some new
          /\ new !! "title" = Some (JStr title)
          /\ new !! "description" = Some (JStr description)
          /\ new !! "date" = Some (JStr date)
          /\ new !! "time" = Some (JStr time)
          /\ new !! "completedOccurrences"
             = Some (orElse (old !! "completedOccurrences") (JArr []))
          /\ forall f, f <> "title" -> f <> "description" -> f <> "date" ->
               f <> "time" -> f <> "completedOccurrences" ->
               new !! f = old !! f)
    /\ dom (collectionOf KEvent r.1) = dom (collectionOf KEvent s).
Proof.
  intros userId autoId id now s old title description date time
    Hu Hi _ Hold Hnoid data r.
  assert (Heid : entityOf id old !! "id" = Some (JStr id)).
  { rewrite lookup_entityOf_id, Hnoid. reflexivity. }
  assert (Hid : data !! "id" = Some (JStr id)).
  { unfold data. apply eventFormData_id, Heid. }
  assert (Hr : r = (updateDoc KEvent id (delete "id" data) s,
                    [("Event updated successfully!", success)])).
  { subst r. unfold saveEvent.
    rewrite (saveEntity_update _ _ _ _ _ _ _ Hu (docName_nonempty _ Hi) Hid).
    unfold updateDocStrict. rewrite Hold. reflexivity. }
  rewrite Hr. cbn [fst snd]. split; [reflexivity|].
  assert (Hdata : forall f, f <> "id" ->
            delete "id" data !! f
            = ({[ "title" := JStr title; "description" := JStr description;
                  "date" := JStr date; "time" := JStr time;
                  "completedOccurrences" :=
                    orElse (old !! "completedOccurrences") (JArr []) ]}
                : doc) !! f).
  { intros f Hf. rewrite lookup_delete_ne by congruence.
    unfold data, eventFormData. rewrite Heid.
    rewrite lookup_insert_ne by congruence.
    rewrite lookup_entityOf_other by discriminate. reflexivity. }
  split.
  - exists (delete "id" data ∪ old). split; [apply lookup_updateDoc, Hold|].
    repeat split.
    + apply lookup_union_Some_l. rewrite Hdata by discriminate. reflexivity.
    + apply lookup_union_Some_l. rewrite Hdata by discriminate. reflexivity.
    + apply lookup_union_Some_l. rewrite Hdata by discriminate. reflexivity.
    + apply lookup_union_Some_l. rewrite Hdata by discriminate. reflexivity.
    + apply lookup_union_Some_l. rewrite Hdata by discriminate. reflexivity.
    + intros f H1 H2 H3 H4 H5. apply lookup_union_r.
      destruct (decide (f = "id")) as [->|Hfid];
        [apply lookup_delete_eq|].
      rewrite (Hdata _ Hfid).
      repeat (rewrite lookup_insert_ne by congruence).
      apply lookup_singleton_ne. congruence.
  - rewrite collectionOf_updateDoc. apply dom_alter_L.
Qed.

Lemma editing_stored_event_updates_it_witness :
  "user-1" <> "" /\ docName "e4" = true /\ storable importedEvent = true /\
  collectionOf KEvent sampleDb !! "e4" = Some importedEvent /\
  importedEvent !! "id" = None /\
  (saveEvent (Some "user-1") "doc-9" (JNum 0)
     (eventFormData (Some (entityOf "e4" importedEvent)) "Imported" "moved"
        "2025-03-03" "10:00") sampleDb).2
  = [("Event updated successfully!", success)].
Proof.
  assert (Hu : "user-1" <> "") by discriminate.
  assert (Hi : docName "e4" = true) by reflexivity.
  assert (Hst : storable importedEvent = true) by (vm_compute; reflexivity).
  assert (Hold : collectionOf KEvent sampleDb !! "e4" = Some importedEvent)
    by (vm_compute; reflexivity).
  assert (Hno : importedEvent !! "id" = None) by reflexivity.
  split; [exact Hu|]. split; [exact Hi|]. split; [exact Hst|].
  split; [exact Hold|]. split; [exact Hno|].
  exact (proj1 (editing_stored_event_updates_it "user-1" "doc-9" "e4" (JNum 0)
                  sampleDb importedEvent "Imported" "moved" "2025-03-03"
                  "10:00" Hu Hi Hst Hold Hno)).
Defined.

(** ** Import and export *)

Lemma collectionOf_deleteDoc (k : kind) (id : string) (s : db) :
  collectionOf k (deleteDoc k id s) = delete id (collectionOf k s).
Proof. unfold deleteDoc. apply collectionOf_setCollection. Qed.

Lemma collectionOf_addDoc (k : kind) (id : string) (d : doc) (s : db) :
  collectionOf k (addDoc k id d s) = <[ id := d ]> (collectionOf k s).
Proof. unfold addDoc. apply collectionOf_setCollection. Qed.

Lemma collectionOf_delete_all (k : kind) (ids : list string) (s : db) :
  collectionOf k (foldl (fun st id => deleteDoc k id st) s ids)
  = foldl (fun m id => delete id m) (collectionOf k s) ids.
Proof.
  revert s. induction ids as [|id ids IH]; intros s; [reflexivity|].
  cbn [foldl]. rewrite IH, collectionOf_deleteDoc. reflexivity.
Qed.

Lemma lookup_delete_all (m : gmap string doc) (ids : list string)
    (id : string) :
  foldl (fun m id => delete id m) m ids !! id
  = if decide (id ∈ ids) then None else m !! id.
Proof.
  revert m. induction ids as [|i ids IH]; intros m; cbn [foldl].
  - destruct (decide (id ∈ [])) as [H|]; [|reflexivity].
    apply elem_of_nil in H. contradiction.
  - rewrite IH.
    destruct (decide (id ∈ ids)) as [Hin|Hin].
    + rewrite decide_True by (apply list_elem_of_further, Hin). reflexivity.
    + destruct (decide (id = i)) as [->|Hne].
      * rewrite decide_True by apply list_elem_of_here.
        apply lookup_delete_eq.
      * rewrite decide_False.
        -- apply lookup_delete_ne. congruence.
        -- intros H. apply elem_of_cons in H. destruct H; contradiction.
Qed.

Lemma cleared_is_empty (k : kind) (s : db) :
  collectionOf k
    (foldl (fun st id => deleteDoc k id st) s
       (map_to_list (collectionOf k s)).*1) = ∅.
Proof.
  rewrite collectionOf_delete_all. apply map_eq. intros id.
  rewrite lookup_delete_all, lookup_empty.
  destruct (decide (id ∈ (map_to_list (collectionOf k s)).*1)) as [|Hn];
    [reflexivity|].
  destruct (collectionOf k s !! id) as [d|] eqn:E; [|reflexivity].
  exfalso. apply Hn. apply list_elem_of_fmap. exists (id, d).
  split; [reflexivity|]. apply elem_of_map_to_list, E.
Qed.

Lemma other_delete_all (k : kind) (ids : list string) (s : db) :
  collectionOf (otherKind k) (foldl (fun st id => deleteDoc k id st) s ids)
  = collectionOf (otherKind k) s.
Proof.
  revert s. induction ids as [|id ids IH]; intros s; [reflexivity|].
  cbn [foldl]. rewrite IH. apply collectionOf_setCollection_other.
Qed.

Lemma imported_entries (k : kind) (gen : nat -> string) (now : nat -> jsval)
    (c : db) (l : list jsval) :
  (forall i j, gen i = gen j -> i = j) -> collectionOf k c = ∅ ->
  let s' := foldl (importStep k gen now) c (imap pair l) in
  (forall id d,
     collectionOf k s' !! id = Some d <->
     exists i entry, l !! i = Some entry /\ id = gen i
                     /\ d = <[ "createdAt" := now i ]> (spread entry))
  /\ size (collectionOf k s') = length l
  /\ collectionOf (otherKind k) s' = collectionOf (otherKind k) c.
Proof.
  intros Hinj Hc. induction l as [|x l IH] using rev_ind; cbn zeta.
  - cbn [imap foldl]. rewrite Hc. split; [|split; reflexivity].
    intros id d. rewrite lookup_empty. split; [discriminate|].
    intros (i & entry & Hl & _). rewrite lookup_nil in Hl. discriminate.
  - cbn zeta in IH. destruct IH as (IH1 & IH2 & IH3).
    rewrite imap_app. cbn [imap]. rewrite foldl_snoc, Nat.add_0_r.
    set (s0 := foldl (importStep k gen now) c (imap pair l)) in *.
    unfold importStep. cbn [fst snd].
    rewrite collectionOf_addDoc.
    assert (Hfresh : collectionOf k s0 !! gen (length l) = None).
    { destruct (collectionOf k s0 !! gen (length l)) as [d|] eqn:E;
        [|reflexivity].
      apply IH1 in E. destruct E as (i & entry & Hl & Hg & _).
      apply Hinj in Hg. apply lookup_lt_Some in Hl. lia. }
    split; [|split].
    + intros id d. rewrite lookup_insert_Some. split.
      * intros [[<- <-] | [Hne Hl]].
        -- exists (length l), x. split; [|split; reflexivity].
           rewrite lookup_app_r by lia. rewrite Nat.sub_diag. reflexivity.
        -- apply IH1 in Hl. destruct Hl as (i & entry & Hl & Hg & Hd).
           exists i, entry. split; [|split; assumption].
           apply lookup_app_l_Some, Hl.
      * intros (i & entry & Hl & -> & ->).
        destruct (decide (i = length l)) as [->|Hi].
        -- left. rewrite lookup_app_r in Hl by lia.
           rewrite Nat.sub_diag in Hl. injection Hl as <-.
           split; reflexivity.
        -- right. split; [intros Hg; apply Hinj in Hg; congruence|].
           apply IH1. exists i, entry. split; [|split; reflexivity].
           rewrite lookup_app_l in Hl; [exact Hl|].
           apply lookup_lt_Some in Hl. rewrite length_app in Hl.
           cbn [length] in Hl. lia.
    + rewrite map_size_insert_None by exact Hfresh.
      rewrite IH2, length_app. cbn [length]. lia.
    + unfold addDoc. rewrite collectionOf_setCollection_other. exact IH3.
Qed.

Lemma importEntries_spec (k : kind) (gen : nat -> string) (now : nat -> jsval)
    (l : list jsval) (s : db) :
  (forall i j, gen i = gen j -> i = j) ->
  let s' := importEntries k gen now l s in
  (forall id d,
     collectionOf k s' !! id = Some d <->
     exists i entry, l !! i = Some entry /\ id = gen i
                     /\ d = <[ "createdAt" := now i ]> (spread entry))
  /\ size (collectionOf k s') = length l
  /\ collectionOf (otherKind k) s' = collectionOf (otherKind k) s.
Proof.
  intros Hinj s'. subst s'. unfold importEntries.
  destruct (imported_entries k gen now _ l Hinj (cleared_is_empty k s))
    as (H1 & H2 & H3).
  split; [exact H1|]. split; [exact H2|].
  rewrite H3. apply other_delete_all.
Qed.

Lemma otherKind_involutive (k : kind) : otherKind (otherKind k) = k.
Proof. destruct k; reflexivity. Qed.

Lemma importKind_other (k : kind) (gen : nat -> string) (now : nat -> jsval)
    (data : jsval) (st : db * list toast) :
  (forall i j, gen i = gen j -> i = j) ->
  collectionOf (otherKind k) (importKind k gen now data st).1
  = collectionOf (otherKind k) st.1.
Proof.
  intros Hinj. unfold importKind.
  destruct (fieldOf data (plural k)) as [[| | | |l|]|]; try reflexivity.
  cbn [fst]. apply (importEntries_spec k gen now l st.1 Hinj).
Qed.

Lemma importKind_skips (k : kind) (gen : nat -> string) (now : nat -> jsval)
    (data : jsval) (st : db * list toast) :
  (forall l, fieldOf data (plural k) <> Some (JArr l)) ->
  importKind k gen now data st = st.
Proof.
  intros H. unfold importKind.
  destruct (fieldOf data (plural k)) as [[| | | |l|]|]; try reflexivity.
  exfalso. exact (H l eq_refl).
Qed.

Lemma importAllData_parsed (userId : string) (genE genT : nat -> string)
    (nowE nowT : nat -> jsval) (data : jsval) (s : db) (k : kind)
    (l : list jsval) :
  userId <> "" -> fieldOf data (plural k) = Some (JArr l) ->
  importAllData (Some userId) genE genT nowE nowT (Some data) s
  = importKind KTask genT nowT data
      (importKind KEvent genE nowE data (s, [])).
Proof.
  intros Hu Hf. unfold importAllData. rewrite (signed_in _ Hu).
  destruct data; try reflexivity. discriminate Hf.
Qed.

Lemma importKind_array (k : kind) (gen : nat -> string) (now : nat -> jsval)
    (data : jsval) (st : db * list toast) (l : list jsval) :
  fieldOf data (plural k) = Some (JArr l) ->
  importKind k gen now data st
  = (importEntries k gen now l st.1,
     st.2 ++ [("Imported " +:+ pretty (length l) +:+ " " +:+ plural k +:+ ".",
               success)]).
Proof. intros H. unfold importKind. rewrite H. reflexivity. Qed.

Lemma importKind_keeps_toasts (k : kind) (gen : nat -> string)
    (now : nat -> jsval) (data : jsval) (st : db * list toast) (t : toast) :
  t ∈ st.2 -> t ∈ (importKind k gen now data st).2.
Proof.
  intros H. unfold importKind.
  destruct (fieldOf data (plural k)) as [[| | | |l|]|]; try exact H.
  cbn [snd]. apply elem_of_app. left. exact H.
Qed.


Lemma numberedId_inj (prefix : string) (i j : nat) :
  numberedId prefix i = numberedId prefix j -> i = j.
Proof.
  unfold numberedId. induction prefix as [|c p IH]; cbn [String.app].
  - apply pretty_nat_inj.
  - intros H. injection H as H. exact (IH H).
Qed.


Lemma withoutId_entityOf (id : string) (e : doc) :
  withoutId (entityOf id e) = withoutId e.
Proof.
  apply map_eq. intros f. unfold withoutId.
  destruct (decide (f = "id")) as [->|Hne].
  - rewrite !lookup_delete_eq. reflexivity.
  - rewrite !lookup_delete_ne by congruence.
    apply lookup_entityOf_other, Hne.
Qed.

Lemma spread_objectOf (d : doc) : spread (objectOf d) = d.
Proof. apply list_to_map_to_list. Qed.

Lemma fieldOf_exported (k : kind) (evs tks : list doc) :
  fieldOf (exportAllData evs tks) (plural k)
  = Some (JArr ((fun e => objectOf (withoutId e))
                  <$> match k with KEvent => evs | KTask => tks end)).
Proof.
  unfold exportAllData, fieldOf. rewrite !list_to_map_cons.
  destruct k; cbn [plural].
  - apply lookup_insert_eq.
  - rewrite lookup_insert_ne by discriminate. apply lookup_insert_eq.
Qed.

Lemma reimported (k : kind) (gen : nat -> string) (now : nat -> jsval)
    (userId : string) (s st : db) :
  userId <> "" -> (forall i j, gen i = gen j -> i = j) ->
  let l := (fun e => objectOf (withoutId e))
             <$> fetchEntities k (Some userId) s in
  let s' := importEntries k gen now l st in
  size (collectionOf k s') = size (collectionOf k s)
  /\ (forall id e,
        collectionOf k s !! id = Some e ->
        exists i, collectionOf k s' !! gen i
                  = Some (<[ "createdAt" := now i ]> (withoutId e)))
  /\ (forall id d,
        collectionOf k s' !! id = Some d ->
        exists id0 e i,
          collectionOf k s !! id0 = Some e /\ id = gen i
          /\ d = <[ "createdAt" := now i ]> (withoutId e)).
Proof.
  intros Hu Hinj l s'.
  destruct (importEntries_spec k gen now l st Hinj) as (H1 & H2 & _).
  fold s' in H1, H2.
  assert (Hl : forall i entry,
            l !! i = Some entry <->
            exists id e, map_to_list (collectionOf k s) !! i = Some (id, e)
                         /\ entry = objectOf (withoutId e)).
  { intros i entry. unfold l, fetchEntities, snapshotEntities.
    rewrite (signed_in _ Hu), <- list_fmap_compose, list_lookup_fmap_Some.
    split.
    - intros ([id e] & -> & Hi). exists id, e. split; [exact Hi|].
      unfold compose. cbn [fst snd]. rewrite withoutId_entityOf. reflexivity.
    - intros (id & e & Hi & ->). exists (id, e). split; [|exact Hi].
      unfold compose. cbn [fst snd]. rewrite withoutId_entityOf. reflexivity. }
  split; [|split].
  - rewrite H2. unfold l, fetchEntities, snapshotEntities.
    rewrite (signed_in _ Hu), !length_fmap. apply length_map_to_list.
  - intros id e He. apply elem_of_map_to_list in He.
    apply list_elem_of_lookup in He. destruct He as [i Hi].
    exists i. apply H1. exists i, (objectOf (withoutId e)).
    split; [apply Hl; exists id, e; split; [exact Hi|reflexivity]|].
    split; [reflexivity|]. rewrite spread_objectOf. reflexivity.
  - intros id d Hd. apply H1 in Hd. destruct Hd as (i & entry & Hi & -> & ->).
    apply Hl in Hi. destruct Hi as (id0 & e & Hi & ->).
    exists id0, e, i. split; [|split; [reflexivity|]].
    + apply elem_of_map_to_list, list_elem_of_lookup. exists i. exact Hi.
    + rewrite spread_objectOf. reflexivity.
Qed.

(** X27. Export followed by import keeps the data and repairs the ids:
    importing the object that [exportAllData] serialises (the JSON text
    taken as read back unchanged) gives each collection as many
    documents as it had; every document comes back with all its fields
    except [id], which is dropped, and [createdAt], which is set anew;
    so every entity is then fetched under its document id. *)
Theorem export_then_import_keeps_the_data :
  forall (k : kind) (userId : string) (genE genT : nat -> string)
         (nowE nowT : nat -> jsval) (s : db),
    userId <> "" ->
    (forall i j, genE i = genE j -> i = j) ->
    (forall i j, genT i = genT j -> i = j) ->
    (forall k' id e, collectionOf k' s !! id = Some e -> storable e = true) ->
    let exported :=
      exportAllData (fetchEntities KEvent (Some userId) s)
        (fetchEntities KTask (Some userId) s) in
    let r :=
      importAllData (Some userId) genE genT nowE nowT (Some exported) s in
    size (collectionOf k r.1) = size (collectionOf k s)
    /\ (forall id e,
          collectionOf k s !! id = Some e ->
          exists i,
            collectionOf k r.1 !! genOf k genE genT i
            = Some (<[ "createdAt" := nowOf k nowE nowT i ]> (withoutId e)))
    /\ (forall id d,
          collectionOf k r.1 !! id = Some d ->
          entityOf id d !! "id" = Some (JStr id)
          /\ exists id0 e i,
               collectionOf k s !! id0 = Some e
               /\ d = <[ "createdAt" := nowOf k nowE nowT i ]> (withoutId e)).
Proof.
  intros k userId genE genT nowE nowT s Hu HgE HgT _ exported r.
  assert (Hr : r.1 = importEntries KTask genT nowT
                       ((fun e => objectOf (withoutId e))
                          <$> fetchEntities KTask (Some userId) s)
                       (importEntries KEvent genE nowE
                          ((fun e => objectOf (withoutId e))
                             <$> fetchEntities KEvent (Some userId) s) s)).
  { subst r exported.
    rewrite (importAllData_parsed _ _ _ _ _ _ _ KEvent _ Hu
               (fieldOf_exported KEvent _ _)).
    rewrite (importKind_array KTask _ _ _ _ _ (fieldOf_exported KTask _ _)).
    rewrite (importKind_array KEvent _ _ _ _ _ (fieldOf_exported KEvent _ _)).
    reflexivity. }
  rewrite Hr.
  assert (Hk : exists gen now st,
            gen = genOf k genE genT /\ now = nowOf k nowE nowT
            /\ (forall i j, gen i = gen j -> i = j)
            /\ collectionOf k
                 (importEntries KTask genT nowT
                    ((fun e => objectOf (withoutId e))
                       <$> fetchEntities KTask (Some userId) s)
                    (importEntries KEvent genE nowE
                       ((fun e => objectOf (withoutId e))
                          <$> fetchEntities KEvent (Some userId) s) s))
               = collectionOf k
                   (importEntries k gen now
                      ((fun e => objectOf (withoutId e))
                         <$> fetchEntities k (Some userId) s) st)).
  { destruct k.
    - exists genE, nowE, s. split; [reflexivity|]. split; [reflexivity|].
      split; [exact HgE|].
      apply (importEntries_spec KTask genT nowT _ _ HgT).
    - eexists genT, nowT, _. split; [reflexivity|]. split; [reflexivity|].
      split; [exact HgT|]. reflexivity. }
  destruct Hk as (gen & now & st & <- & <- & Hinj & ->).
  destruct (reimported k gen now userId s st Hu Hinj) as (H1 & H2 & H3).
  split; [exact H1|]. split; [exact H2|].
  intros id d Hd. destruct (H3 id d Hd) as (id0 & e & i & He & _ & ->).
  split.
  - rewrite lookup_entityOf_id.
    rewrite lookup_insert_ne by discriminate.
    unfold withoutId. rewrite lookup_delete_eq. reflexivity.
  - exists id0, e, i. split; [exact He|reflexivity].
Qed.

Lemma export_then_import_keeps_the_data_witness :
  "user-1" <> "" /\
  (forall k' id e, collectionOf k' sampleDb !! id = Some e ->
                   storable e = true) /\
  size (collectionOf KEvent
          (importAllData (Some "user-1") (numberedId "ev-") (numberedId "tk-")
             (fun _ => JNum 0) (fun _ => JNum 0)
             (Some (exportAllData
                      (fetchEntities KEvent (Some "user-1") sampleDb)
                      (fetchEntities KTask (Some "user-1") sampleDb)))
             sampleDb).1)
  = size (collectionOf KEvent sampleDb).
Proof.
  assert (Hu : "user-1" <> "") by discriminate.
  assert (Hst : forall k' id e, collectionOf k' sampleDb !! id = Some e ->
                                storable e = true).
  { intros k' id e H.
    assert (Hall : map_Forall (fun _ e => storable e = true)
                     (collectionOf k' sampleDb)).
    { destruct k'; cbn [collectionOf sampleDb events tasks].
      - repeat (apply map_Forall_insert_2; [vm_compute; reflexivity|]).
        apply map_Forall_empty.
      - apply map_Forall_empty. }
    exact (Hall id e H). }
  split; [exact Hu|]. split; [exact Hst|].
  exact (proj1
    (export_then_import_keeps_the_data KEvent "user-1" (numberedId "ev-")
       (numberedId "tk-") (fun _ => JNum 0) (fun _ => JNum 0) sampleDb Hu
       (numberedId_inj "ev-") (numberedId_inj "tk-") Hst)).
Defined.

(** ** The CSV export *)

Lemma string_app_cons (x : Ascii.ascii) (a b : string) :
  String x a +:+ b = String x (a +:+ b).
Proof. reflexivity. Qed.

Lemma string_app_nil_l (a : string) : "" +:+ a = a.
Proof. reflexivity. Qed.

Lemma string_app_assoc (a b c : string) : (a +:+ b) +:+ c = a +:+ (b +:+ c).
Proof.
  induction a as [|x a IH]; [reflexivity|].
  rewrite !string_app_cons, IH. reflexivity.
Qed.

Lemma string_app_nil_r (a : string) : a +:+ "" = a.
Proof.
  induction a as [|x a IH]; [reflexivity|].
  rewrite string_app_cons, IH. reflexivity.
Qed.

Lemma string_app_snoc (cur : string) (c : Ascii.ascii) (s : string) :
  (cur +:+ str c) +:+ s = cur +:+ String c s.
Proof. apply string_app_assoc. Qed.

Lemma scanRow_plain (s rest : string) (q : bool) (cur : string) :
  charIn dquote s = false -> q = true \/ charIn comma s = false ->
  scanRow (s +:+ rest) q cur = scanRow rest q (cur +:+ s).
Proof.
  revert cur. induction s as [|c s IH]; intros cur Hq Hc.
  - rewrite string_app_nil_l, string_app_nil_r. reflexivity.
  - cbn [charIn] in Hq, Hc. apply orb_false_elim in Hq.
    destruct Hq as [Hq1 Hq2]. rewrite Ascii.eqb_sym in Hq1.
    rewrite string_app_cons. cbn [scanRow]. rewrite Hq1.
    assert (Hbranch : Ascii.eqb c comma && negb q = false).
    { destruct Hc as [-> | Hc]; [apply andb_false_r|].
      apply orb_false_elim in Hc. destruct Hc as [Hc _].
      rewrite Ascii.eqb_sym in Hc. rewrite Hc. reflexivity. }
    rewrite Hbranch, IH; [apply f_equal, string_app_snoc|exact Hq2|].
    destruct Hc as [Hc | Hc]; [left; exact Hc|right].
    apply orb_false_elim in Hc. apply Hc.
Qed.

Lemma scanRow_closing (rest : string) (cur : string) :
  afterCell rest ->
  scanRow (String dquote rest) true cur = scanRow rest false cur.
Proof.
  intros [-> | [r ->]]; cbn [scanRow]; rewrite Ascii.eqb_refl;
    reflexivity.
Qed.

Lemma scanRow_quoted_body (s rest : string) (cur : string) :
  afterCell rest ->
  scanRow (doubleQuotes s +:+ String dquote rest) true cur
  = scanRow rest false (cur +:+ s).
Proof.
  intros Hrest. revert cur. induction s as [|c s IH]; intros cur.
  - cbn [doubleQuotes]. rewrite string_app_nil_l, string_app_nil_r.
    apply scanRow_closing, Hrest.
  - cbn [doubleQuotes]. destruct (Ascii.eqb_spec c dquote) as [->|Hne].
    + rewrite !string_app_cons. cbn [scanRow]. rewrite Ascii.eqb_refl.
      rewrite IH. apply f_equal, string_app_snoc.
    + rewrite string_app_cons. cbn [scanRow].
      apply Ascii.eqb_neq in Hne. rewrite Hne. rewrite andb_false_r.
      rewrite IH. apply f_equal, string_app_snoc.
Qed.

Lemma scanRow_quoted (s rest : string) (cur : string) :
  afterCell rest ->
  scanRow (quoted s +:+ rest) false cur = scanRow rest false (cur +:+ s).
Proof.
  intros Hrest. unfold quoted. rewrite string_app_cons. cbn [scanRow].
  rewrite Ascii.eqb_refl. cbn [negb].
  rewrite string_app_assoc. unfold str.
  rewrite string_app_cons, string_app_nil_l.
  apply scanRow_quoted_body, Hrest.
Qed.

Lemma scanRow_cell (v rest : string) (cur : string) :
  afterCell rest ->
  scanRow (escapeField v +:+ rest) false cur = scanRow rest false (cur +:+ v).
Proof.
  intros Hrest. unfold escapeField.
  destruct (charIn comma v) eqn:Hc; [apply scanRow_quoted, Hrest|].
  destruct (charIn dquote v) eqn:Hq; [apply scanRow_quoted, Hrest|].
  destruct (charIn newline v); [apply scanRow_quoted, Hrest|].
  cbn [orb]. apply scanRow_plain; [exact Hq|right; exact Hc].
Qed.

Lemma scanRow_comma (rest cur : string) :
  scanRow (String comma rest) false cur = cur :: scanRow rest false "".
Proof. reflexivity. Qed.

Lemma scanRow_cells (f : string -> string) (v : string) (vs : list string) :
  (forall v rest cur, afterCell rest ->
     scanRow (f v +:+ rest) false cur = scanRow rest false (cur +:+ v)) ->
  scanRow (String.concat (str comma) (f <$> v :: vs)) false "" = v :: vs.
Proof.
  intros Hf. revert v. induction vs as [|v2 vs IH]; intros v.
  - cbn [fmap list_fmap String.concat].
    rewrite <- (string_app_nil_r (f v)), Hf by (left; reflexivity).
    reflexivity.
  - change (String.concat (str comma) (f <$> v :: v2 :: vs))
      with (f v +:+ str comma +:+ String.concat (str comma) (f <$> v2 :: vs)).
    unfold str at 1. rewrite string_app_cons, string_app_nil_l.
    rewrite Hf by (right; eexists; reflexivity).
    rewrite scanRow_comma, IH. reflexivity.
Qed.

Lemma scanRow_csvLine (v : string) (vs : list string) :
  scanRow (csvLine (v :: vs)) false "" = v :: vs.
Proof. apply scanRow_cells. intros. apply scanRow_cell. assumption. Qed.



Lemma exportRow_length (k : kind) (e : doc) : length (exportRow k e) = 11%nat.
Proof. reflexivity. Qed.

Lemma concat_empty_cons (x : string) (l : list string) :
  String.concat "" (x :: l) = x +:+ String.concat "" l.
Proof.
  destruct l as [|y l]; [|reflexivity].
  cbn [String.concat]. rewrite string_app_nil_r. reflexivity.
Qed.

Lemma export_text (rows : list (list string)) (start : string) :
  foldl (fun csvContent row => csvContent +:+ csvLine row +:+ str newline)
    start rows
  = start +:+ String.concat ""
                ((fun row => csvLine row +:+ str newline) <$> rows).
Proof.
  revert start. induction rows as [|row rows IH]; intros start.
  - cbn [foldl fmap list_fmap String.concat].
    rewrite string_app_nil_r. reflexivity.
  - cbn [foldl]. rewrite IH, fmap_cons, concat_empty_cons.
    apply string_app_assoc.
Qed.

